(** * Krishi-Raksha front end: the [App] component of [Frontend/src/App.jsx]

    A shallow embedding of the request/response orchestration and of the
    chart projections of the React component [App], followed by the
    properties proved about it.

    The file has three parts:
    - [JS]: the fragment of ECMAScript the component relies on (values as
      [JSON.parse] and the file input deliver them, the coercions [ToBoolean],
      [ToNumber] and [ToString], property reads, [Number.prototype.toFixed],
      [String.prototype.toLowerCase] and [startsWith], [Object.keys] and
      [Object.values]);
    - the component itself: its state, the event handlers [handleImageFile],
      [handleSendClick] and [handleSeeMoreClick], the data it hands to the
      two charts and to the markdown renderer, and the page as a transition
      system over clicks, file selections and settling requests;
    - the properties, claim by claim (part 3), and further properties of
      the handlers and of the screen (part 4).

    The view [render] of part 2 holds what the claims look at; the rest of
    the component ([handlePreviewClick] with the Preview button, the notice
    banner, the progress indicators, the info grid and the image cards)
    follows it and makes up the whole [screen].  Left out are the options of
    the two charts (tooltip and tick callbacks) and the [onError] handler of
    the images. *)

From Stdlib Require Import ZArith QArith Qround List String Ascii Bool Lia.
From Stdlib Require Import SpecFloat DecimalString.
Import ListNotations.

Local Open Scope string_scope.
Local Open Scope Z_scope.

(* ===================================================================== *)
(** * Part 1: the ECMAScript fragment *)
(* ===================================================================== *)

Module JS.

(** ** Numbers

    A JavaScript number is an IEEE 754 binary64 value.  [spec_float] is the
    Standard Library's specification of that format: signed zeros, signed
    infinities, a single NaN (JavaScript cannot tell NaNs apart either) and
    finite values [(-1)^s * m * 2^e]. *)

Definition number : Set := spec_float.

Definition prec : Z := 53.
Definition emax : Z := 1024.

(** The number denoted by an integer literal such as [100] or [0]. *)
Definition of_Z (z : Z) : number := binary_normalize prec emax z 0 false.

(** [x * y] and [x - y] on numbers (round to nearest, ties to even). *)
Definition multiply (x y : number) : number := SFmul prec emax x y.
Definition subtract (x y : number) : number := SFsub prec emax x y.

(** A finite number in canonical form: a 53-bit significand, or the least
    exponent.  [binary_normalize] is exact on representable inputs. *)
Definition canonical (n : number) : number :=
  match n with
  | S754_finite s m e => binary_normalize prec emax (if s then Z.neg m else Z.pos m) e s
  | _ => n
  end.

(** The exact value of [m * 2^e] as a fraction [num / den] with [den > 0]. *)
Definition numerator (m : positive) (e : Z) : Z := Z.pos m * 2 ^ Z.max e 0.
Definition denominator (e : Z) : Z := 2 ^ Z.max (- e) 0.
Definition exact (m : positive) (e : Z) : Q :=
  Qmake (numerator m e) (Z.to_pos (denominator e)).

(** Decimal digits of a natural number, without sign. *)
Definition decimal (z : Z) : string := NilZero.string_of_uint (N.to_uint (Z.to_N z)).

Fixpoint zeros (n : nat) : string :=
  match n with O => "" | S k => String "0" (zeros k) end.

Definition string_take (n : nat) (s : string) : string := substring 0 n s.
Definition string_drop (n : nat) (s : string) : string := substring n (length s - n) s.

(** *** Number::toString (radix 10)

    For a positive finite [x] the standard asks for integers [n], [k], [s]
    with [10^(k-1) <= s < 10^k], [s * 10^(n-k)] converting back to [x], and
    [k] as small as possible; among several [s] the one nearest to [x], the
    even one on a tie. *)

Definition pow10 (z : Z) : Q := Qpower (10 # 1) z.

(** The reals that round to the canonical [m * 2^e] lie between the midpoints
    to its two neighbours; the midpoints themselves round to it when [m] is
    even.  Below a power of two the lower neighbour is half as far. *)
Definition window_hi (m : positive) (e : Z) : Q :=
  inject_Z (2 * Z.pos m + 1) * Qpower (2 # 1) (e - 1).
Definition window_lo (m : positive) (e : Z) : Q :=
  if (Z.pos m =? 2 ^ 52) && (-1074 <? e)
  then inject_Z (4 * Z.pos m - 1) * Qpower (2 # 1) (e - 2)
  else inject_Z (2 * Z.pos m - 1) * Qpower (2 # 1) (e - 1).
Definition in_window (m : positive) (e : Z) (v : Q) : bool :=
  if Z.even (Z.pos m)
  then Qle_bool (window_lo m e) v && Qle_bool v (window_hi m e)
  else negb (Qle_bool v (window_lo m e)) && negb (Qle_bool (window_hi m e) v).

(** The [n] with [10^(n-1) <= x < 10^n]: a short scan upwards from an
    underestimate taken from the binary logarithm ([1233 / 4096] is just
    below the decimal logarithm of 2). *)
Fixpoint decade_from (fuel : nat) (start : Z) (x : Q) : Z :=
  match fuel with
  | O => start
  | S f => if Qle_bool (pow10 start) x then decade_from f (start + 1) x else start
  end.
Definition decade (m : positive) (e : Z) : Z :=
  decade_from 8 ((Z.log2 (Z.pos m) + e) * 1233 / 4096 - 2) (exact m e).

Definition Qdist (a b : Q) : Q := if Qle_bool a b then b - a else a - b.

(** The [k]-digit candidates [(n, s)] around [x] that convert back to it. *)
Definition candidates (m : positive) (e : Z) (x : Q) (n0 k : Z) : list (Z * Z) :=
  flat_map
    (fun n =>
       let p := pow10 (n - k) in
       let s0 := Qfloor (x / p) in
       filter
         (fun ns =>
            let s := snd ns in
            (10 ^ (k - 1) <=? s) && (s <? 10 ^ k) && in_window m e (inject_Z s * p))
         [(n, s0); (n, s0 + 1)])
    [n0; n0 + 1].

Definition better (x : Q) (k : Z) (a b : Z * Z) : Z * Z :=
  let da := Qdist (inject_Z (snd a) * pow10 (fst a - k)) x in
  let db := Qdist (inject_Z (snd b) * pow10 (fst b - k)) x in
  match Qcompare da db with
  | Lt => a
  | Gt => b
  | Eq => if Z.even (snd a) then a else b
  end.

Definition nearest (x : Q) (k : Z) (l : list (Z * Z)) : option (Z * Z) :=
  match l with
  | [] => None
  | a :: r => Some (fold_left (better x k) r a)
  end.

(** The first [k] from [k] on (at most 17 digits are ever needed) that has
    a candidate, with the chosen [n] and [s]. *)
Fixpoint shortest_from (fuel : nat) (m : positive) (e : Z) (x : Q) (n0 k : Z)
  : Z * Z * Z :=
  match fuel with
  | O => (n0, k, 0)
  | S f =>
      match nearest x k (candidates m e x n0 k) with
      | Some (n, s) => (n, k, s)
      | None => shortest_from f m e x n0 (k + 1)
      end
  end.

Definition shortest (m : positive) (e : Z) : Z * Z * Z :=
  let x := exact m e in
  shortest_from 17 m e x (decade m e) 1.

(** The layout of the digits [s] ([k] of them) with decimal exponent [n]. *)
Definition layout (n k s : Z) : string :=
  let d := decimal s in
  if (k <=? n) && (n <=? 21) then d ++ zeros (Z.to_nat (n - k))
  else if (0 <? n) && (n <=? 21) then
    string_take (Z.to_nat n) d ++ "." ++ string_drop (Z.to_nat n) d
  else if (-6 <? n) && (n <=? 0) then "0." ++ zeros (Z.to_nat (- n)) ++ d
  else
    let x := n - 1 in
    let sign := if x <? 0 then "-" else "+" in
    if k =? 1 then d ++ "e" ++ sign ++ decimal (Z.abs x)
    else string_take 1 d ++ "." ++ string_drop 1 d ++ "e" ++ sign ++ decimal (Z.abs x).

Definition Number_toString (x : number) : string :=
  match canonical x with
  | S754_nan => "NaN"
  | S754_zero _ => "0"
  | S754_infinity s => if s then "-Infinity" else "Infinity"
  | S754_finite s m e =>
      let '(n, k, d) := shortest m e in
      (if s then "-" else "") ++ layout n k d
  end.

(** *** Number.prototype.toFixed(2)

    Not finite: as [Number_toString].  Otherwise the sign is split off; from
    [10^21] on the result is again [Number_toString]; below, [n] is the
    integer for which [n / 100 - x] is as close to zero as possible, the
    larger one if there are two, printed with two digits after the point. *)

Definition hundredths (m : positive) (e : Z) : Z :=
  (200 * numerator m e + denominator e) / (2 * denominator e).

Definition fixed2 (n : Z) : string :=
  let d := decimal n in
  let d := zeros (3 - length d) ++ d in
  string_take (length d - 2) d ++ "." ++ string_drop (length d - 2) d.

Definition below_1e21 (m : positive) (e : Z) : bool :=
  numerator m e <? 10 ^ 21 * denominator e.

Definition toFixed2 (x : number) : string :=
  match x with
  | S754_zero _ => "0.00"
  | S754_finite s m e =>
      if below_1e21 m e
      then (if s then "-" else "") ++ fixed2 (hundredths m e)
      else Number_toString x
  | _ => Number_toString x
  end.

(** ** Strings

    A string is held as the bytes of its UTF-8 encoding (a lone surrogate,
    which only [Object.values] of a string can produce here, as the three
    bytes of its generalised encoding). *)

Definition byte_of (c : ascii) : Z := Z.of_N (N_of_ascii c).
Definition ascii_of_Z (z : Z) : ascii := ascii_of_N (Z.to_N z).

(** [String.prototype.toLowerCase] on the letters A-Z.  The component only
    compares the result with the lower-case ASCII words "healthy", "mild",
    "moderate" and "severe"; the one character outside ASCII whose lower case
    is an ASCII letter is the Kelvin sign (to "k"), which none of these words
    contains, so the comparisons come out as in JavaScript. *)
Definition lower_ascii (c : ascii) : ascii :=
  let b := byte_of c in
  if (65 <=? b) && (b <=? 90) then ascii_of_Z (b + 32) else c.

Fixpoint toLowerCase (s : string) : string :=
  match s with
  | EmptyString => EmptyString
  | String c r => String (lower_ascii c) (toLowerCase r)
  end.

(** [s.startsWith(searchString)]. *)
Definition startsWith (s searchString : string) : bool := String.prefix searchString s.

(** The UTF-16 code units of a string, each as a string of its own: what
    indexing a string and [Object.values] of a string see. *)
Definition unit3 (u : Z) : string :=
  String (ascii_of_Z (224 + u / 4096))
    (String (ascii_of_Z (128 + (u / 64) mod 64))
       (String (ascii_of_Z (128 + u mod 64)) EmptyString)).

Fixpoint code_units_from (fuel : nat) (s : string) : list string :=
  match fuel with
  | O => []
  | S f =>
      match s with
      | EmptyString => []
      | String a r =>
          let b := byte_of a in
          if b <? 192 then String a EmptyString :: code_units_from f r
          else if b <? 224 then string_take 2 s :: code_units_from f (string_drop 2 s)
          else if b <? 240 then string_take 3 s :: code_units_from f (string_drop 3 s)
          else
            match r with
            | String a1 (String a2 (String a3 r')) =>
                let cp := (b mod 8) * 262144 + (byte_of a1 mod 64) * 4096
                          + (byte_of a2 mod 64) * 64 + byte_of a3 mod 64 in
                let v := cp - 65536 in
                unit3 (55296 + v / 1024) :: unit3 (56320 + v mod 1024)
                  :: code_units_from f r'
            | _ => [s]
            end
      end
  end.
Definition code_units (s : string) : list string := code_units_from (length s) s.

(** *** StringToNumber

    White space and line terminators are trimmed; the empty string is [+0];
    [0x], [0o] and [0b] literals carry no sign; otherwise an optional sign and
    [Infinity] or a decimal literal with optional fraction and exponent;
    anything else is NaN. *)

(** The rest of [s] after one white-space or line-terminator character. *)
Definition skip_space (s : string) : option string :=
  match s with
  | EmptyString => None
  | String a r =>
      let b := byte_of a in
      if ((9 <=? b) && (b <=? 13)) || (b =? 32) then Some r
      else
        match r with
        | String a1 r1 =>
            let b1 := byte_of a1 in
            if (b =? 194) && (b1 =? 160) then Some r1
            else
              match r1 with
              | String a2 r2 =>
                  let b2 := byte_of a2 in
                  if ((b =? 225) && (b1 =? 154) && (b2 =? 128))
                     || ((b =? 226) && (b1 =? 128)
                         && (((128 <=? b2) && (b2 <=? 138)) || (b2 =? 168)
                             || (b2 =? 169) || (b2 =? 175)))
                     || ((b =? 226) && (b1 =? 129) && (b2 =? 159))
                     || ((b =? 227) && (b1 =? 128) && (b2 =? 128))
                     || ((b =? 239) && (b1 =? 187) && (b2 =? 191))
                  then Some r2
                  else None
              | EmptyString => None
              end
        | EmptyString => None
        end
  end.

Fixpoint trim_start_from (fuel : nat) (s : string) : string :=
  match fuel with
  | O => s
  | S f => match skip_space s with Some r => trim_start_from f r | None => s end
  end.
Definition trim_start (s : string) : string := trim_start_from (length s) s.

Definition all_space (s : string) : bool := String.eqb (trim_start s) "".

Fixpoint trim_end (s : string) : string :=
  if all_space s then ""
  else match s with
       | EmptyString => ""
       | String c r => String c (trim_end r)
       end.

Definition trim (s : string) : string := trim_end (trim_start s).

Definition digit_value (base : Z) (c : ascii) : option Z :=
  let b := byte_of c in
  let v := if (48 <=? b) && (b <=? 57) then b - 48
           else if (97 <=? b) && (b <=? 102) then b - 87
           else if (65 <=? b) && (b <=? 70) then b - 55
           else base in
  if v <? base then Some v else None.

(** The leading digits of [s] in [base]: their value on top of [acc], their
    number on top of [count], and the rest of [s]. *)
Fixpoint digits (base : Z) (s : string) (acc count : Z) : Z * Z * string :=
  match s with
  | EmptyString => (acc, count, s)
  | String c r =>
      match digit_value base c with
      | Some v => digits base r (acc * base + v) (count + 1)
      | None => (acc, count, s)
      end
  end.

Definition nan : number := S754_nan.

Definition prefixed_literal (s : string) : option number :=
  match s with
  | String "0" (String c r) =>
      let base := if (c =? "x")%char || (c =? "X")%char then Some 16
                  else if (c =? "o")%char || (c =? "O")%char then Some 8
                  else if (c =? "b")%char || (c =? "B")%char then Some 2
                  else None in
      match base with
      | Some b =>
          let '(v, n, rest) := digits b r 0 0 in
          Some (if (1 <=? n) && String.eqb rest "" then of_Z v else nan)
      | None => None
      end
  | _ => None
  end.

(** The number nearest to [M * 10^E], negated when [neg]. *)
Definition decimal_value (neg : bool) (M E : Z) : number :=
  if M =? 0 then S754_zero neg
  else
    let magnitude := E + Z.of_nat (length (decimal M)) in
    if 400 <? magnitude then S754_infinity neg
    else if magnitude <? -400 then S754_zero neg
    else if 0 <=? E
         then binary_normalize prec emax ((if neg then -1 else 1) * (M * 10 ^ E)) 0 neg
         else SFdiv prec emax (S754_finite neg (Z.to_pos M) 0)
                (S754_finite false (Z.to_pos (10 ^ (- E))) 0).

Definition signed (s : string) : bool * string :=
  match s with
  | String "-" r => (true, r)
  | String "+" r => (false, r)
  | _ => (false, s)
  end.

Definition exponent_part (s : string) : option Z :=
  match s with
  | EmptyString => Some 0
  | String c r =>
      if (c =? "e")%char || (c =? "E")%char then
        let '(neg, r) := signed r in
        let '(v, n, rest) := digits 10 r 0 0 in
        if (1 <=? n) && String.eqb rest "" then Some (if neg then - v else v) else None
      else None
  end.

Definition StringToNumber (str : string) : number :=
  let s := trim str in
  if String.eqb s "" then S754_zero false
  else
    match prefixed_literal s with
    | Some n => n
    | None =>
        let '(neg, u) := signed s in
        if String.eqb u "Infinity" then S754_infinity neg
        else
          let '(ip, ni, r1) := digits 10 u 0 0 in
          let '(fp, nf, r2) :=
            match r1 with
            | String "." r => digits 10 r 0 0
            | _ => (0, 0, r1)
            end in
          if ni + nf =? 0 then nan
          else
            match exponent_part r2 with
            | Some x => decimal_value neg (ip * 10 ^ nf + fp) (x - nf)
            | None => nan
            end
    end.

(** ** Values

    What [JSON.parse] can return, [undefined], and the [File] objects of the
    file input.  An object is the list of its own enumerable properties in
    the order [Object.keys] reports them (keys are distinct); the component
    holds no functions in its data. *)

Record File : Set := {
  file_name : string;
  file_type : string;   (* the media type, the empty string when unknown *)
  file_size : Z;
  file_url : string     (* the URL [URL.createObjectURL] mints for the file *)
}.

#[warnings="-register-all"]
Inductive value : Set :=
| VUndefined
| VNull
| VBool (b : bool)
| VNum (n : number)
| VStr (s : string)
| VArr (elements : list value)
| VObj (props : list (string * value))
| VFile (f : File).

(** Thrown values: all of them are [Error] objects with a name and a message. *)
Inductive exn : Set := Exn (name message : string).

Definition message (e : exn) : string := let 'Exn _ m := e in m.
Definition TypeError (m : string) : exn := Exn "TypeError" m.
Definition SyntaxError (m : string) : exn := Exn "SyntaxError" m.

(** The outcome of evaluating an expression: a value or a thrown error. *)
Inductive result (A : Type) : Type :=
| Ok (a : A)
| Throw (e : exn).
Arguments Ok {A} a.
Arguments Throw {A} e.

Definition bind {A B : Type} (r : result A) (k : A -> result B) : result B :=
  match r with
  | Ok a => k a
  | Throw e => Throw e
  end.

Definition is_nullish (v : value) : bool :=
  match v with
  | VUndefined | VNull => true
  | _ => false
  end.

Definition ToBoolean (v : value) : bool :=
  match v with
  | VUndefined | VNull => false
  | VBool b => b
  | VNum (S754_zero _) | VNum S754_nan => false
  | VNum _ => true
  | VStr s => negb (String.eqb s "")
  | VArr _ | VObj _ | VFile _ => true
  end.

Fixpoint ToString (v : value) : string :=
  match v with
  | VUndefined => "undefined"
  | VNull => "null"
  | VBool b => if b then "true" else "false"
  | VNum n => Number_toString n
  | VStr s => s
  | VArr l =>
      String.concat ","
        (map (fun x => match x with
                       | VUndefined | VNull => ""
                       | _ => ToString x
                       end) l)
  | VObj _ => "[object Object]"
  | VFile _ => "[object File]"
  end.

Definition ToNumber (v : value) : number :=
  match v with
  | VUndefined => nan
  | VNull => S754_zero false
  | VBool b => if b then of_Z 1 else S754_zero false
  | VNum n => n
  | VStr s => StringToNumber s
  | VArr _ | VObj _ | VFile _ => StringToNumber (ToString v)
  end.

(** [a || b] (the right operand is a constant wherever the component uses
    the operator, so it is passed evaluated). *)
Definition or (a b : value) : value := if ToBoolean a then a else b.

(** The keys ["0"], ["1"], ... of [n] indexed elements. *)
Definition indices (n : nat) : list string :=
  map (fun i => decimal (Z.of_nat i)) (seq 0 n).

(** The own enumerable string-keyed properties of a value seen as an object. *)
Definition enumerable (v : value) : list (string * value) :=
  match v with
  | VObj props => props
  | VArr l => combine (indices (List.length l)) l
  | VStr s => let u := code_units s in combine (indices (List.length u)) (map VStr u)
  | _ => []
  end.

(** The data properties a read can find: the enumerable ones, [length] of
    arrays and strings and the attributes of a [File].  Properties inherited
    from the built-in prototypes are methods; the component reads none of
    them as data, and calls two of them, modelled by [call_startsWith] and
    [call_toLowerCase] below. *)
Definition properties (v : value) : list (string * value) :=
  match v with
  | VArr l => enumerable v ++ [("length", VNum (of_Z (Z.of_nat (List.length l))))]
  | VStr s =>
      enumerable v ++ [("length", VNum (of_Z (Z.of_nat (List.length (code_units s)))))]
  | VFile f =>
      [("name", VStr (file_name f)); ("size", VNum (of_Z (file_size f)));
       ("type", VStr (file_type f))]
  | _ => enumerable v
  end.

Fixpoint lookup (key : string) (props : list (string * value)) : value :=
  match props with
  | [] => VUndefined
  | (k, v) :: r => if String.eqb k key then v else lookup key r
  end.

Definition cannot_read (v : value) (key : string) : exn :=
  TypeError ("Cannot read properties of " ++ ToString v ++ " (reading '" ++ key ++ "')").

(** [v.key]: a [TypeError] on [undefined] and [null]. *)
Definition get (v : value) (key : string) : result value :=
  if is_nullish v then Throw (cannot_read v key) else Ok (lookup key (properties v)).

(** [v?.key]: [undefined] on [undefined] and [null]. *)
Definition get_opt (v : value) (key : string) : value :=
  if is_nullish v then VUndefined else lookup key (properties v).

(** [Object.keys(v)] and [Object.values(v)]. *)
Definition Object_keys (v : value) : result (list string) :=
  if is_nullish v then Throw (TypeError "Cannot convert undefined or null to object")
  else Ok (map fst (enumerable v)).
Definition Object_values (v : value) : result (list value) :=
  if is_nullish v then Throw (TypeError "Cannot convert undefined or null to object")
  else Ok (map snd (enumerable v)).

(** [recv.startsWith(searchString)] and [recv.toLowerCase()], where [expr]
    is the text of the callee: only a string has these methods; on any other
    value the property is not a function, and on [undefined] or [null] it
    cannot even be read. *)
Definition call_startsWith (expr : string) (recv : value) (searchString : string)
  : result value :=
  match recv with
  | VUndefined | VNull => Throw (cannot_read recv "startsWith")
  | VStr s => Ok (VBool (startsWith s searchString))
  | _ => Throw (TypeError (expr ++ " is not a function"))
  end.

Definition call_toLowerCase (expr : string) (recv : value) : result value :=
  match recv with
  | VUndefined | VNull => Throw (cannot_read recv "toLowerCase")
  | VStr s => Ok (VStr (toLowerCase s))
  | _ => Throw (TypeError (expr ++ " is not a function"))
  end.

End JS.

Import JS.

Notation "x <- e ;; k" := (bind e (fun x => k))
  (at level 61, e at next level, right associativity).

(* ===================================================================== *)
(** * Part 2: the component [App] *)
(* ===================================================================== *)

(** ** State

    The eight [useState] cells of [App]. *)

Record State : Set := mkState {
  loading : bool;
  ragLoading : bool;
  file : value;
  previewUrl : value;
  dragActive : bool;
  error : value;
  analyzeResult : value;
  ragResult : value
}.

(** The state of the first render: [useState(false)] and [useState(null)]. *)
Definition initial : State :=
  mkState false false VNull VNull false VNull VNull VNull.

Definition analyzeUrl : string := "https://8b88-27-131-210-65.ngrok-free.app/analyze".
Definition ragUrl : string := "https://f955-103-77-138-82.ngrok-free.app/generate".

(** ** Event handlers

    A handler runs on the state of the render it was created in and queues
    state updates; React applies them in order, so the last update of a cell
    wins.  A handler may throw: the updates queued before the throw stay.
    The handlers of [App] read state cells only before their first update,
    so the state read and the state being updated are one. *)

Definition handler (A : Type) : Type := State -> result A * State.

Definition ret {A : Type} (a : A) : handler A := fun st => (Ok a, st).
Definition lift {A : Type} (r : result A) : handler A := fun st => (r, st).
Definition read {A : Type} (cell : State -> A) : handler A := fun st => (Ok (cell st), st).

Definition and_then {A B : Type} (m : handler A) (k : A -> handler B) : handler B :=
  fun st =>
    match m st with
    | (Ok a, st') => k a st'
    | (Throw e, st') => (Throw e, st')
    end.

(** [try { body } catch (err) { recover err } finally { last }]. *)
Definition try_catch_finally (body : handler unit) (recover : exn -> handler unit)
  (last : handler unit) : handler unit :=
  fun st =>
    let '(r, st1) :=
      match body st with
      | (Ok tt, st') => (Ok tt, st')
      | (Throw e, st') => recover e st'
      end in
    match last st1 with
    | (Ok tt, st2) => (r, st2)
    | (Throw e, st2) => (Throw e, st2)
    end.

Notation "x <~ m ;; k" := (and_then m (fun x => k))
  (at level 61, m at next level, right associativity).
Notation "m ;;; k" := (and_then m (fun _ => k))
  (at level 61, right associativity).

Definition setLoading (b : bool) : handler unit := fun st =>
  (Ok tt, mkState b (ragLoading st) (file st) (previewUrl st) (dragActive st)
            (error st) (analyzeResult st) (ragResult st)).
Definition setRagLoading (b : bool) : handler unit := fun st =>
  (Ok tt, mkState (loading st) b (file st) (previewUrl st) (dragActive st)
            (error st) (analyzeResult st) (ragResult st)).
Definition setFile (v : value) : handler unit := fun st =>
  (Ok tt, mkState (loading st) (ragLoading st) v (previewUrl st) (dragActive st)
            (error st) (analyzeResult st) (ragResult st)).
Definition setPreviewUrl (v : value) : handler unit := fun st =>
  (Ok tt, mkState (loading st) (ragLoading st) (file st) v (dragActive st)
            (error st) (analyzeResult st) (ragResult st)).
Definition setError (v : value) : handler unit := fun st =>
  (Ok tt, mkState (loading st) (ragLoading st) (file st) (previewUrl st) (dragActive st)
            v (analyzeResult st) (ragResult st)).
Definition setAnalyzeResult (v : value) : handler unit := fun st =>
  (Ok tt, mkState (loading st) (ragLoading st) (file st) (previewUrl st) (dragActive st)
            (error st) v (ragResult st)).
Definition setRagResult (v : value) : handler unit := fun st =>
  (Ok tt, mkState (loading st) (ragLoading st) (file st) (previewUrl st) (dragActive st)
            (error st) (analyzeResult st) v).

Definition resetState : handler unit :=
  setError VNull ;;;
  setAnalyzeResult VNull ;;;
  setRagResult VNull.

(** [URL.createObjectURL(v)]: the URL of a [File]; a [TypeError] on anything
    that is not a blob. *)
Definition createObjectURL (v : value) : result value :=
  match v with
  | VFile f => Ok (VStr (file_url f))
  | _ => Throw (TypeError "Failed to execute 'createObjectURL' on 'URL': Overload resolution failed.")
  end.

(** [selectedFile?.type.startsWith("image/")]: the optional chain ends the
    whole expression with [undefined] on a missing [selectedFile]; past it,
    [.type] and the call are ordinary. *)
Definition is_image (selectedFile : value) : result value :=
  if is_nullish selectedFile then Ok VUndefined
  else
    t <- get selectedFile "type" ;;
    call_startsWith "selectedFile?.type.startsWith" t "image/".

Definition handleImageFile (selectedFile : value) : handler unit :=
  c <~ lift (is_image selectedFile) ;;
  if ToBoolean c then
    setFile selectedFile ;;;
    (u <~ lift (createObjectURL selectedFile) ;; setPreviewUrl u) ;;;
    resetState ;;;
    setError (VStr "✅ Image updated successfully!")
  else
    setError (VStr "❌ Please select a valid image file") ;;;
    setFile VNull ;;;
    setPreviewUrl VNull ;;;
    resetState.

(** ** The two requests *)

Inductive Body : Set :=
| FormData (fields : list (string * value))   (* multipart/form-data *)
| JsonText (payload : value).                 (* [JSON.stringify(payload)] *)

Record Request : Set := {
  url : string;
  method : string;
  headers : list (string * string);
  body : Body
}.

(** A response: its status and what [res.json()] settles to, the parsed
    body or the [SyntaxError] of a body that is not JSON. *)
Record Response : Set := {
  status : Z;
  json : result value
}.

(** [res.ok]. *)
Definition ok (res : Response) : bool := (200 <=? status res) && (status res <=? 299).

(** An [async] handler runs up to its first [await] when the button is
    clicked ([_click]: the request it sends, if any) and resumes when [fetch]
    settles ([_settled]), with a response or with the [TypeError] of a
    network failure.  Other events can come in between. *)

Definition handleSendClick_click : handler (option Request) :=
  f <~ read file ;;
  if negb (ToBoolean f) then
    setError (VStr "❌ Please select or drop an image") ;;;
    ret None
  else
    setLoading true ;;;
    ret (Some {| url := analyzeUrl; method := "POST"; headers := [];
                 body := FormData [("file", f)] |}).

Definition handleSendClick_settled (fetched : result Response) : handler unit :=
  try_catch_finally
    (res <~ lift fetched ;;
     data <~ lift (json res) ;;
     if ok res then
       setAnalyzeResult data ;;;
       setError VNull ;;;
       setRagResult VNull
     else
       e <~ lift (get data "error") ;;
       setError (VStr ("❌ Analyze API error: "
                       ++ ToString (or e (VStr "Failed to process image"))
                       ++ " (Status: " ++ Number_toString (of_Z (status res)) ++ ")")))
    (fun err => setError (VStr ("❌ Error uploading image: " ++ message err)))
    (setLoading false).

Definition instruction : string :=
  "Tell me about this disease and also provide prevention methods for this severity level.".

Definition payload (analyzeResult : value) : value :=
  VObj
    [("messages", VArr [VObj [("content", VStr instruction)]]);
     ("predicted_class",
       or (get_opt (get_opt analyzeResult "disease_classification") "predicted_class")
          (VStr "Unknown"));
     ("severity",
       or (get_opt (get_opt analyzeResult "disease_segmentation") "severity")
          (VNum (of_Z 0)));
     ("severity_class",
       or (get_opt (get_opt analyzeResult "disease_segmentation") "classification")
          (VStr "Unknown"))].

Definition handleSeeMoreClick_click : handler (option Request) :=
  a <~ read analyzeResult ;;
  if negb (ToBoolean a) then
    setError (VStr "❌ No analysis data available to fetch more details") ;;;
    ret None
  else
    setRagLoading true ;;;
    ret (Some {| url := ragUrl; method := "POST";
                 headers := [("Content-Type", "application/json")];
                 body := JsonText (payload a) |}).

Definition handleSeeMoreClick_settled (fetched : result Response) : handler unit :=
  try_catch_finally
    (res <~ lift fetched ;;
     data <~ lift (json res) ;;
     if ok res then
       setRagResult data ;;;
       setError VNull
     else
       e <~ lift (get data "error") ;;
       setError (VStr ("❌ RAG API error: "
                       ++ ToString (or e (VStr "Failed to get RAG output"))
                       ++ " (Status: " ++ Number_toString (of_Z (status res)) ++ ")")))
    (fun err => setError (VStr ("❌ Error fetching RAG data: " ++ message err)))
    (setRagLoading false).

(** A whole call when nothing else happens in between, against a server
    [fetch] that answers every request. *)
Definition handleSendClick (fetch : Request -> result Response) : handler unit :=
  rq <~ handleSendClick_click ;;
  match rq with
  | Some r => handleSendClick_settled (fetch r)
  | None => ret tt
  end.

Definition handleSeeMoreClick (fetch : Request -> result Response) : handler unit :=
  rq <~ handleSeeMoreClick_click ;;
  match rq with
  | Some r => handleSeeMoreClick_settled (fetch r)
  | None => ret tt
  end.

(** ** Projections of the analysis result *)

(** [v === "text"]. *)
Definition is_string (v : value) (text : string) : bool :=
  match v with
  | VStr s => String.eqb s text
  | _ => false
  end.

(** The [switch] compares its subject with each [case] by [===], in order. *)
Definition getSeverityColor (level : value) : result string :=
  l <- (if is_nullish level then Ok VUndefined
        else call_toLowerCase "level?.toLowerCase" level) ;;
  Ok (if is_string l "mild" then "#FFC107"
      else if is_string l "moderate" then "#FF9800"
      else if is_string l "severe" then "#F44336"
      else if is_string l "healthy" then "#4CAF50"
      else "#9E9E9E").

Definition severityPercentage (analyzeResult : value) : value :=
  or (get_opt (get_opt analyzeResult "disease_segmentation") "severity") (VNum (of_Z 0)).

Definition healthyColor : string := "#4CAF50".
Definition diseaseColor : string := "#F44336".

(** The [data] prop of [<Bar>]: one dataset. *)
Record BarData : Set := {
  bar_labels : list string;
  bar_data : list string;
  bar_backgroundColor : list string
}.

(** [analyzeResult.disease_classification.probabilities || {}]. *)
Definition probabilities (analyzeResult : value) : result value :=
  c <- get analyzeResult "disease_classification" ;;
  p <- get c "probabilities" ;;
  Ok (or p (VObj [])).

Definition barData (analyzeResult : value) : result BarData :=
  p <- probabilities analyzeResult ;;
  labels <- Object_keys p ;;
  p <- probabilities analyzeResult ;;
  vs <- Object_values p ;;
  p <- probabilities analyzeResult ;;
  ks <- Object_keys p ;;
  Ok {| bar_labels := labels;
        bar_data := map (fun v => toFixed2 (multiply (ToNumber v) (of_Z 100))) vs;
        bar_backgroundColor :=
          map (fun key => if String.eqb (toLowerCase key) "healthy"
                          then healthyColor else diseaseColor) ks |}.

(** The [data] prop of [<Doughnut>]: one dataset. *)
Record DoughnutData : Set := {
  doughnut_labels : list string;
  doughnut_data : list value;
  doughnut_backgroundColor : list string
}.

Definition doughnutData (analyzeResult : value) : result DoughnutData :=
  let s := severityPercentage analyzeResult in
  c <- getSeverityColor
         (get_opt (get_opt analyzeResult "disease_segmentation") "classification") ;;
  Ok {| doughnut_labels := ["Diseased"; "Healthy"];
        doughnut_data := [s; VNum (subtract (of_Z 100) (ToNumber s))];
        doughnut_backgroundColor := [c; healthyColor] |}.

(** ** The view

    What [App] returns, as far as the properties below look at it: the
    Analyze button, the results section with its two charts and the
    "See More Details" button, and the detail section.  The texts and images
    left out cannot make the render throw on a result whose fields have the
    types of the analysis API. *)

(** The content of [<div className="rag-content">]: the markdown renderer
    with its child, or the plain text. *)
Inductive RagContent : Set :=
| Markdown (children : value)
| Text (s : string).

Definition ragContent (ragResult : value) : RagContent :=
  let text := or (or (get_opt ragResult "message") (get_opt ragResult "answer"))
                 (get_opt ragResult "response") in
  if ToBoolean text then Markdown text else Text "No response available".

(** [{v && element}]: the element on a truthy [v]; otherwise React renders
    [v] itself, nothing for [null], [undefined], [false] and the empty
    string, the digits for the numbers [0] and [NaN]. *)
Inductive child (A : Type) : Type :=
| Blank
| TextNode (s : string)
| Element (a : A).
Arguments Blank {A}.
Arguments TextNode {A} s.
Arguments Element {A} a.

Definition guarded {A : Type} (v : value) (element : result A) : result (child A) :=
  if ToBoolean v then a <- element ;; Ok (Element a)
  else Ok (match v with
           | VNum n => TextNode (Number_toString n)
           | _ => Blank
           end).

Record Results : Set := {
  bar : BarData;
  doughnut : DoughnutData;
  seeMore_disabled : bool
}.

Record View : Type := {
  analyze_disabled : bool;
  results : child Results;
  rag : child RagContent
}.

Definition render (st : State) : result View :=
  res <- guarded (analyzeResult st)
           (b <- barData (analyzeResult st) ;;
            d <- doughnutData (analyzeResult st) ;;
            Ok {| bar := b; doughnut := d;
                  seeMore_disabled := loading st || ragLoading st |}) ;;
  r <- guarded (ragResult st) (Ok (ragContent (ragResult st))) ;;
  Ok {| analyze_disabled := loading st || negb (ToBoolean (file st));
        results := res;
        rag := r |}.

(** ** The page as a transition system

    The page is the component state together with the requests in flight.
    The drop zone can hand over a file at any time; a button can be clicked
    when it is on the screen and not disabled; a request in flight can
    settle.  A render that throws takes the component off the screen: no
    event is possible any more. *)

Record Page : Type := {
  ui : State;
  analyzing : list Request;
  detailing : list Request
}.

Definition start : Page := {| ui := initial; analyzing := []; detailing := [] |}.

Inductive event : Type :=
| SelectFile (candidate : value)
| ClickAnalyze
| AnalyzeSettles (fetched : result Response)
| ClickSeeMore
| DetailSettles (fetched : result Response).

Definition option_list {A : Type} (o : option A) : list A :=
  match o with Some a => [a] | None => [] end.

Definition sent (r : result (option Request)) : list Request :=
  match r with Ok o => option_list o | Throw _ => [] end.

Definition step (p : Page) (ev : event) : option Page :=
  match render (ui p) with
  | Throw _ => None
  | Ok v =>
      match ev with
      | SelectFile c =>
          Some {| ui := snd (handleImageFile c (ui p));
                  analyzing := analyzing p; detailing := detailing p |}
      | ClickAnalyze =>
          if analyze_disabled v then None
          else
            let '(r, st) := handleSendClick_click (ui p) in
            Some {| ui := st; analyzing := analyzing p ++ sent r;
                    detailing := detailing p |}
      | AnalyzeSettles f =>
          match analyzing p with
          | [] => None
          | _ :: rest =>
              Some {| ui := snd (handleSendClick_settled f (ui p));
                      analyzing := rest; detailing := detailing p |}
          end
      | ClickSeeMore =>
          match results v with
          | Element r =>
              if seeMore_disabled r then None
              else
                let '(r, st) := handleSeeMoreClick_click (ui p) in
                Some {| ui := st; analyzing := analyzing p;
                        detailing := detailing p ++ sent r |}
          | _ => None
          end
      | DetailSettles f =>
          match detailing p with
          | [] => None
          | _ :: rest =>
              Some {| ui := snd (handleSeeMoreClick_settled f (ui p));
                      analyzing := analyzing p; detailing := rest |}
          end
      end
  end.

Fixpoint run (p : Page) (evs : list event) : option Page :=
  match evs with
  | [] => Some p
  | ev :: rest =>
      match step p ev with
      | Some p' => run p' rest
      | None => None
      end
  end.

Definition reachable (p : Page) : Prop := exists evs, run start evs = Some p.

(** ** The rest of the component

    The Preview button with its handler, the notice banner, the two progress
    indicators, and the texts and images of the results section. *)

(** [s.includes(searchString)]: [searchString] occurs somewhere in [s]. *)
Fixpoint includes (s searchString : string) : bool :=
  String.prefix searchString s
  || match s with
     | EmptyString => false
     | String _ r => includes r searchString
     end.

(** [recv.includes("text")]: strings and arrays have the method (an array
    looks for an element that is that very string). *)
Definition call_includes (expr : string) (recv : value) (text : string) : result value :=
  match recv with
  | VUndefined | VNull => Throw (cannot_read recv "includes")
  | VStr s => Ok (VBool (includes s text))
  | VArr l => Ok (VBool (existsb (fun x => is_string x text) l))
  | _ => Throw (TypeError (expr ++ " is not a function"))
  end.

(** [a ?? b], with [b] a constant. *)
Definition coalesce (a b : value) : value := if is_nullish a then b else a.




(** [disabled] of the Preview button. *)
Definition preview_disabled (st : State) : bool := loading st || negb (ToBoolean (file st)).

(** The notice banner: its class and its text. *)
Definition noticeBanner (st : State) : result (child (string * value)) :=
  guarded (error st)
    (c <- call_includes "error.includes" (error st) "✅" ;;
     Ok (if ToBoolean c then "success-message" else "error-message", error st)).

(** The two progress indicators, [{loading && ...}] and [{ragLoading && ...}]. *)
Definition analyzing_indicator (st : State) : option string :=
  if loading st then Some "Uploading & Analyzing..." else None.
Definition detail_indicator (st : State) : option string :=
  if ragLoading st then Some "Fetching disease information..." else None.

(** The text of the "See More Details" button. *)
Definition seeMore_text (st : State) : string :=
  if ragLoading st then "Loading..." else "See More Details".

(** What React makes of a value placed among the children of an element:
    the text of a string or of a number, nothing for a boolean, [null] and
    [undefined], the children of an array one after the other, and an error
    for any other object. *)
Definition not_a_child (v : value) : exn :=
  Exn "Error"
    ("Objects are not valid as a React child (found: "
     ++ (match v with
         | VObj props => "object with keys {" ++ String.concat ", " (map fst props) ++ "}"
         | _ => ToString v
         end)
     ++ "). If you meant to render a collection of children, use an array instead.").

Fixpoint text_nodes (v : value) : result (list string) :=
  match v with
  | VUndefined | VNull | VBool _ => Ok []
  | VNum n => Ok [Number_toString n]
  | VStr s => Ok [s]
  | VArr l =>
      (fix all (l : list value) : result (list string) :=
         match l with
         | [] => Ok []
         | x :: r => a <- text_nodes x ;; b <- all r ;; Ok (a ++ b)%list
         end) l
  | VObj _ | VFile _ => Throw (not_a_child v)
  end.

(** One line of the info grid: its label, the colour of its value (the
    first three lines have none) and the text of its value. *)
Record InfoLine : Set := {
  info_label : string;
  info_colour : option string;
  info_value : list string
}.

(** [analyzeResult?.disease_segmentation?.[key]]. *)
Definition segmentation_field (analyzeResult : value) (key : string) : value :=
  get_opt (get_opt analyzeResult "disease_segmentation") key.

Definition infoGrid (analyzeResult : value) : result (list InfoLine) :=
  b <- text_nodes (coalesce (segmentation_field analyzeResult "boundary_pixels") (VStr "N/A")) ;;
  d <- text_nodes (coalesce (segmentation_field analyzeResult "disease_pixels") (VStr "N/A")) ;;
  t <- text_nodes (coalesce (segmentation_field analyzeResult "total_leaf_area") (VStr "N/A")) ;;
  sc <- getSeverityColor (segmentation_field analyzeResult "classification") ;;
  s <- text_nodes (severityPercentage analyzeResult) ;;
  cc <- getSeverityColor (segmentation_field analyzeResult "classification") ;;
  c <- text_nodes (or (segmentation_field analyzeResult "classification") (VStr "N/A")) ;;
  Ok [ {| info_label := "Boundary Pixels:"; info_colour := None; info_value := b |};
       {| info_label := "Disease Pixels:"; info_colour := None; info_value := d |};
       {| info_label := "Total Leaf Area:"; info_colour := None; info_value := t |};
       {| info_label := "Severity:"; info_colour := Some sc; info_value := (s ++ ["%"])%list |};
       {| info_label := "Classification:"; info_colour := Some cc; info_value := c |} ].

(** [imgKey.replace(/_/g, " ").toUpperCase()] on the ASCII keys. *)
Definition upper_ascii (c : ascii) : ascii :=
  let b := byte_of c in
  if (97 <=? b) && (b <=? 122) then ascii_of_Z (b - 32) else c.

Fixpoint card_title (imgKey : string) : string :=
  match imgKey with
  | EmptyString => EmptyString
  | String c r =>
      String (if Ascii.eqb c "_" then " "%char else upper_ascii c) (card_title r)
  end.

(** [s.length], the number of UTF-16 code units of [s]: an integer below
    [2^53], so comparing it as a number is comparing it as an integer. *)
Definition string_length (s : string) : Z := Z.of_nat (List.length (code_units s)).

(** [base64Image && typeof base64Image === "string" && base64Image.length > 0]:
    each [&&] gives its left operand when that is falsy, and its right one
    otherwise; [.length] is only read of a string. *)
Definition isValidBase64 (base64Image : value) : value :=
  if ToBoolean base64Image then
    match base64Image with
    | VStr s => VBool (0 <? string_length s)
    | _ => VBool false
    end
  else base64Image.

(** A card of the image grid: the image with its [src], or the notice that
    there is none. *)
Record ImageCard : Set := {
  card_heading : string;
  card_src : option value
}.

Definition imageCard (analyzeResult : value) (imgKey : string) : ImageCard :=
  let base64Image := segmentation_field analyzeResult imgKey in
  {| card_heading := card_title imgKey;
     card_src := if ToBoolean (isValidBase64 base64Image) then Some base64Image else None |}.

Definition imageGrid (analyzeResult : value) : list ImageCard :=
  map (imageCard analyzeResult)
    ["original_image"; "diseased_area_image"; "annotated_image"].

(** The whole results section, in the order of the source: the bar chart,
    the doughnut with the percentage at its centre, the info grid, the
    images and the button. *)
Record ResultsSection : Set := {
  section_bar : BarData;
  section_doughnut : DoughnutData;
  section_centre_colour : string;
  section_centre : list string;
  section_info : list InfoLine;
  section_images : list ImageCard;
  section_button : string * bool
}.

Definition resultsSection (st : State) : result ResultsSection :=
  let a := analyzeResult st in
  b <- barData a ;;
  d <- doughnutData a ;;
  cc <- getSeverityColor (segmentation_field a "classification") ;;
  c <- text_nodes (severityPercentage a) ;;
  i <- infoGrid a ;;
  Ok {| section_bar := b; section_doughnut := d;
        section_centre_colour := cc; section_centre := (c ++ ["%"])%list;
        section_info := i; section_images := imageGrid a;
        section_button := (seeMore_text st, loading st || ragLoading st) |}.

(** The screen: everything [App] returns below the drop zone. *)
Record Screen : Type := {
  screen_preview_disabled : bool;
  screen_analyze_disabled : bool;
  screen_analyzing : option string;
  screen_notice : child (string * value);
  screen_results : child ResultsSection;
  screen_detail_indicator : option string;
  screen_rag : child RagContent
}.

Definition screen (st : State) : result Screen :=
  n <- noticeBanner st ;;
  res <- guarded (analyzeResult st) (resultsSection st) ;;
  r <- guarded (ragResult st) (Ok (ragContent (ragResult st))) ;;
  Ok {| screen_preview_disabled := preview_disabled st;
        screen_analyze_disabled := loading st || negb (ToBoolean (file st));
        screen_analyzing := analyzing_indicator st;
        screen_notice := n;
        screen_results := res;
        screen_detail_indicator := detail_indicator st;
        screen_rag := r |}.

(** ** Sample data *)

Definition leaf : File :=
  {| file_name := "leaf.png"; file_type := "image/png"; file_size := 20480;
     file_url := "blob:http://localhost:5173/0b8e5c2a" |}.

Definition tomato : File :=
  {| file_name := "tomato.jpg"; file_type := "image/jpeg"; file_size := 51200;
     file_url := "blob:http://localhost:5173/5d1c9e40" |}.

Definition report : File :=
  {| file_name := "report.pdf"; file_type := "application/pdf"; file_size := 4096;
     file_url := "blob:http://localhost:5173/77aa01f3" |}.

(** The numbers written [0.9] and [0.1]. *)
Definition n0_9 : number := S754_finite false 8106479329266893 (-53).
Definition n0_1 : number := S754_finite false 7205759403792794 (-56).

(** [{disease_classification: {predicted_class: "Rust", probabilities:
    {Healthy: 0.9, Rust: 0.1}}, disease_segmentation: {severity: 35,
    classification: "Moderate"}}]. *)
Definition rust : value :=
  VObj
    [("disease_classification",
       VObj [("predicted_class", VStr "Rust");
             ("probabilities", VObj [("Healthy", VNum n0_9); ("Rust", VNum n0_1)])]);
     ("disease_segmentation",
       VObj [("severity", VNum (of_Z 35)); ("classification", VStr "Moderate")])].

Definition answers (code : Z) (data : value) : result Response :=
  Ok {| status := code; json := Ok data |}.

(** ** Vocabulary of the properties *)

(** What a settled request delivers: the parsed body of a response with a
    success status.  Anything else is a failure: a rejected [fetch], a body
    that is not JSON, a status outside 200-299. *)
Definition delivered (fetched : result Response) : option value :=
  match fetched with
  | Ok res =>
      match json res with
      | Ok data => if ok res then Some data else None
      | Throw _ => None
      end
  | Throw _ => None
  end.

(** The error message of a request that delivered nothing.  An error thrown
    on the way (by [fetch], by [res.json()], or by reading the [error] field
    off a body that is [null]) is reported by its own message, after the
    words [thrown].  A rejection by the server is reported after the words
    [rejected], by the [error] text of its body, or by [fallback] when the
    body has none (or an empty one), and closes with the status. *)
Definition failure_notice (thrown rejected fallback : string)
  (fetched : result Response) : string :=
  match fetched with
  | Throw e => thrown ++ message e
  | Ok res =>
      match json res with
      | Throw e => thrown ++ message e
      | Ok data =>
          if is_nullish data then thrown ++ message (cannot_read data "error")
          else
            rejected
            ++ (if ToBoolean (get_opt data "error") then ToString (get_opt data "error")
                else fallback)
            ++ " (Status: " ++ Number_toString (of_Z (status res)) ++ ")"
      end
  end.

(** What the drop zone hands over: nothing ([null], [undefined]) or a [File]. *)
Definition is_selection (c : value) : bool :=
  match c with
  | VUndefined | VNull | VFile _ => true
  | _ => false
  end.

(** A [File] whose media type starts with "image/". *)
Definition is_image_file (c : value) : bool :=
  match c with
  | VFile f => startsWith (file_type f) "image/"
  | _ => false
  end.

(** The colours of a doughnut, when there is one. *)
Definition doughnut_backgroundColor_of (r : result DoughnutData) : option (list string) :=
  match r with
  | Ok d => Some (doughnut_backgroundColor d)
  | Throw _ => None
  end.

(** The fields of an analysis result the component reads through optional
    chains: [undefined] stands for a field that is missing at any level. *)
Definition predicted_class (a : value) : value :=
  get_opt (get_opt a "disease_classification") "predicted_class".
Definition severity (a : value) : value :=
  get_opt (get_opt a "disease_segmentation") "severity".
Definition classification (a : value) : value :=
  get_opt (get_opt a "disease_segmentation") "classification".

(** [v] when it is truthy, [default] when it is missing, [null], [false],
    [0], [NaN] or the empty string. *)
Definition truthy_or (v default : value) : value := if ToBoolean v then v else default.




(** [s] is [word] up to the case of its letters, for a [word] made of
    lower-case letters: each character of [s] is the letter of [word] at its
    place or the capital of that letter. *)
Definition capital (c : ascii) : ascii := ascii_of_Z (byte_of c - 32).
Definition is_lower (c : ascii) : bool := (97 <=? byte_of c) && (byte_of c <=? 122).

Fixpoint same_word (word s : string) : bool :=
  match word, s with
  | EmptyString, EmptyString => true
  | String w word', String c s' =>
      (Ascii.eqb c w || Ascii.eqb c (capital w)) && same_word word' s'
  | _, _ => false
  end.

(** The colour table of the severity classes as C9 words it: the four
    labels as written, grey for anything else. *)
Definition listed_colour (c : value) : string :=
  if is_string c "Mild" then "#FFC107"
  else if is_string c "Moderate" then "#FF9800"
  else if is_string c "Severe" then "#F44336"
  else if is_string c "Healthy" then "#4CAF50"
  else "#9E9E9E".

(** The same table read without regard to case. *)
Definition severity_colour (c : value) : string :=
  match c with
  | VStr s =>
      if same_word "mild" s then "#FFC107"
      else if same_word "moderate" s then "#FF9800"
      else if same_word "severe" s then "#F44336"
      else if same_word "healthy" s then "#4CAF50"
      else "#9E9E9E"
  | _ => "#9E9E9E"
  end.




(** The loading flags account for the requests in flight: no request of a
    kind is in flight while its flag is down, never more than one, and no
    flag is up with nothing in flight. *)
Definition accounted (p : Page) : Prop :=
  (loading (ui p) = false -> analyzing p = [])
  /\ (ragLoading (ui p) = false -> detailing p = [])
  /\ (List.length (analyzing p) <= 1)%nat
  /\ (List.length (detailing p) <= 1)%nat
  /\ (analyzing p = [] -> loading (ui p) = false)
  /\ (detailing p = [] -> ragLoading (ui p) = false).

(** The page with a leaf analysed and its details asked for, not yet there. *)
Definition awaiting_details : Page :=
  {| ui := mkState false true (VFile leaf) (VStr (file_url leaf)) false VNull rust VNull;
     analyzing := [];
     detailing := [{| url := ragUrl; method := "POST";
                      headers := [("Content-Type", "application/json")];
                      body := JsonText (payload rust) |}] |}.

(** The page with a leaf selected and nothing else done. *)
Definition leaf_selected : Page :=
  {| ui := mkState false false (VFile leaf) (VStr (file_url leaf)) false
             (VStr "✅ Image updated successfully!") VNull VNull;
     analyzing := []; detailing := [] |}.

(** The page with the analysis of the leaf on the screen. *)
Definition leaf_analysed : Page :=
  {| ui := mkState false false (VFile leaf) (VStr (file_url leaf)) false VNull rust VNull;
     analyzing := []; detailing := [] |}.

(** The page with the analysis of the leaf in flight. *)
Definition awaiting_analysis : Page :=
  {| ui := mkState true false (VFile leaf) (VStr (file_url leaf)) false
             (VStr "✅ Image updated successfully!") VNull VNull;
     analyzing := [{| url := analyzeUrl; method := "POST"; headers := [];
                      body := FormData [("file", VFile leaf)] |}];
     detailing := [] |}.

(** The drop zone hands over selections only. *)
Definition selections (evs : list event) : bool :=
  forallb (fun ev => match ev with
                     | SelectFile c => is_selection c
                     | _ => true
                     end) evs.

(** The file and its preview URL go together: none of the two, or an image
    file with the URL minted for it. *)
Definition in_step (st : State) : Prop :=
  (file st = VNull /\ previewUrl st = VNull)
  \/ exists f, startsWith (file_type f) "image/" = true
               /\ file st = VFile f /\ previewUrl st = VStr (file_url f).

(** An upload of an image file. *)
Definition uploads_image (rq : Request) : Prop :=
  exists f, startsWith (file_type f) "image/" = true
            /\ rq = {| url := analyzeUrl; method := "POST"; headers := [];
                       body := FormData [("file", VFile f)] |}.

(** The notices the component writes: none, the one success text, or a text
    that starts with the cross mark. *)
Definition is_notice (v : value) : Prop :=
  v = VNull
  \/ v = VStr "✅ Image updated successfully!"
  \/ exists rest, v = VStr ("❌" ++ rest).

(** A field of the expected type, or missing. *)
Definition number_or_missing (v : value) : bool :=
  match v with
  | VUndefined | VNull | VNum _ => true
  | _ => false
  end.
Definition text_or_missing (v : value) : bool :=
  match v with
  | VUndefined | VNull | VStr _ => true
  | _ => false
  end.

(** A result whose fields, where they are there, have the types of the
    analysis API: the classification object, a text for the severity class,
    numbers for the severity and the three metrics.  (The probabilities and
    the images may hold anything.) *)
Definition well_typed (a : value) : bool :=
  ToBoolean a
  && negb (is_nullish (get_opt a "disease_classification"))
  && text_or_missing (classification a)
  && number_or_missing (severity a)
  && number_or_missing (segmentation_field a "boundary_pixels")
  && number_or_missing (segmentation_field a "disease_pixels")
  && number_or_missing (segmentation_field a "total_leaf_area").


(** The text of a metric in the info grid. *)
Definition metric_text (v : value) : list string :=
  match v with
  | VNum n => [Number_toString n]
  | VStr s => [s]
  | _ => ["N/A"]
  end.

(** The status codes of HTTP, 100 to 599. *)
Definition status_codes : list Z := map (fun n => 100 + Z.of_nat n) (seq 0 500).

(* ===================================================================== *)
(** * Part 3: properties *)
(* ===================================================================== *)

(** ** The literals denote the numbers they are written as *)

Example literal_0_9 : StringToNumber "0.9" = n0_9.
Proof. vm_compute. reflexivity. Qed.

Example literal_0_1 : StringToNumber "0.1" = n0_1.
Proof. vm_compute. reflexivity. Qed.

Example prints_0_9 : Number_toString n0_9 = "0.9".
Proof. vm_compute. reflexivity. Qed.

Example prints_35 : Number_toString (of_Z 35) = "35".
Proof. vm_compute. reflexivity. Qed.

(** ** Handlers: what each one leaves untouched *)

Ltac run_handler :=
  cbv [handleImageFile handleSendClick_click handleSendClick_settled
       handleSeeMoreClick_click handleSeeMoreClick_settled resetState
       try_catch_finally and_then lift read ret
       setLoading setRagLoading setFile setPreviewUrl setError
       setAnalyzeResult setRagResult fst snd
       loading ragLoading file previewUrl dragActive error analyzeResult ragResult].

Lemma analyze_settled (fetched : result Response) (st : State) :
  exists msg,
    handleSendClick_settled fetched st =
      (Ok tt,
       match delivered fetched with
       | Some data =>
           mkState false (ragLoading st) (file st) (previewUrl st) (dragActive st)
             VNull data VNull
       | None =>
           mkState false (ragLoading st) (file st) (previewUrl st) (dragActive st)
             (VStr msg) (analyzeResult st) (ragResult st)
       end).
Proof.
  run_handler. unfold delivered.
  destruct fetched as [res | e]; cbn; [| eauto].
  destruct (json res) as [data | e]; cbn; [| eauto].
  destruct (ok res); cbn; [exists ""; reflexivity |].
  destruct (get data "error"); cbn; eauto.
Qed.

Lemma detail_settled (fetched : result Response) (st : State) :
  exists msg,
    handleSeeMoreClick_settled fetched st =
      (Ok tt,
       match delivered fetched with
       | Some data =>
           mkState (loading st) false (file st) (previewUrl st) (dragActive st)
             VNull (analyzeResult st) data
       | None =>
           mkState (loading st) false (file st) (previewUrl st) (dragActive st)
             (VStr msg) (analyzeResult st) (ragResult st)
       end).
Proof.
  run_handler. unfold delivered.
  destruct fetched as [res | e]; cbn; [| eauto].
  destruct (json res) as [data | e]; cbn; [| eauto].
  destruct (ok res); cbn; [exists ""; reflexivity |].
  destruct (get data "error"); cbn; eauto.
Qed.

(** The condition of [handleImageFile] on what the drop zone hands over. *)
Lemma is_image_selection (c : value) :
  is_selection c = true ->
  exists v, is_image c = Ok v /\ ToBoolean v = is_image_file c.
Proof.
  destruct c; try discriminate; intros _.
  - exists VUndefined. split; reflexivity.
  - exists VUndefined. split; reflexivity.
  - exists (VBool (startsWith (file_type f) "image/")). split; reflexivity.
Qed.

(** A selection is either accepted or rejected, without a throw. *)
Lemma image_file_accepted (f : File) (st : State) :
  startsWith (file_type f) "image/" = true ->
  handleImageFile (VFile f) st =
    (Ok tt,
     mkState (loading st) (ragLoading st) (VFile f) (VStr (file_url f)) (dragActive st)
       (VStr "✅ Image updated successfully!") VNull VNull).
Proof.
  intros H.
  destruct (is_image_selection (VFile f) eq_refl) as [v [E T]].
  unfold handleImageFile, and_then at 1, lift. rewrite E, T.
  unfold is_image_file. rewrite H. destruct st. reflexivity.
Qed.

Lemma selection_rejected (c : value) (st : State) :
  is_selection c = true -> is_image_file c = false ->
  handleImageFile c st =
    (Ok tt,
     mkState (loading st) (ragLoading st) VNull VNull (dragActive st) VNull VNull VNull).
Proof.
  intros Hs Hi.
  destruct (is_image_selection c Hs) as [v [E T]].
  unfold handleImageFile, and_then at 1, lift. rewrite E, T, Hi.
  destruct st. reflexivity.
Qed.

(** ** C1: a failed analysis *)

(** C1, as stated, fails: on the page where a leaf was analysed with success
    and a second analysis is answered with status 500, the result of the
    first analysis is still in [analyzeResult]. *)
Lemma failed_analyze_keeps_result :
  option_map (fun p => analyzeResult (ui p))
    (run start
       [SelectFile (VFile leaf); ClickAnalyze; AnalyzeSettles (answers 200 rust);
        ClickAnalyze; AnalyzeSettles (answers 500 (VObj [("error", VStr "bad image")]))])
  = Some rust.
Proof. vm_compute. reflexivity. Qed.

(** C1, amended: when an analyze call settles without delivering a result (a
    status outside 200-299, a rejected [fetch], a body that is not JSON), it
    does not throw and two cells change, no other: the notice becomes the
    error message of the failure and [loading] is lowered.  The stored
    [analyzeResult] and [ragResult] are the ones from before the call, and so
    are the file, its preview URL and [ragLoading].  This holds of the
    settlement in whatever state it finds, and of the whole call (click and
    settlement, nothing in between) on a selected file. *)
Theorem failed_analyze_leaves_result (fetched : result Response) (st : State) :
  delivered fetched = None ->
  let after :=
    mkState false (ragLoading st) (file st) (previewUrl st) (dragActive st)
      (VStr (failure_notice "❌ Error uploading image: " "❌ Analyze API error: "
               "Failed to process image" fetched))
      (analyzeResult st) (ragResult st) in
  handleSendClick_settled fetched st = (Ok tt, after)
  /\ (ToBoolean (file st) = true ->
      handleSendClick (fun _ => fetched) st = (Ok tt, after)).
Proof.
  intros H after. subst after. destruct st as [l r f u d n a g].
  assert (S : forall l',
    handleSendClick_settled fetched (mkState l' r f u d n a g) =
      (Ok tt,
       mkState false r f u d
         (VStr (failure_notice "❌ Error uploading image: " "❌ Analyze API error: "
                  "Failed to process image" fetched)) a g)).
  { intros l'. run_handler. unfold delivered in H. unfold failure_notice.
    destruct fetched as [res | e]; [| reflexivity].
    destruct (json res) as [data | e]; [| reflexivity].
    destruct (ok res); [discriminate |].
    unfold get, get_opt. destruct (is_nullish data); [reflexivity |].
    cbv beta iota. unfold or.
    destruct (ToBoolean (lookup "error" (properties data))); reflexivity. }
  cbn [ragLoading file previewUrl dragActive analyzeResult ragResult].
  split; [apply S |].
  intros F. cbn [file] in F.
  unfold handleSendClick, handleSendClick_click, and_then, read, ret, setLoading.
  cbn [file ragLoading previewUrl dragActive error analyzeResult ragResult].
  rewrite F. cbn [negb]. apply S.
Qed.

Lemma failed_analyze_leaves_result_witness :
  let fetched := answers 500 (VObj [("error", VStr "bad image")]) in
  let st := mkState false false (VFile leaf) (VStr (file_url leaf)) false VNull rust
              (VObj [("answer", VStr "Remove infected leaves.")]) in
  let after := mkState false false (VFile leaf) (VStr (file_url leaf)) false
                 (VStr "❌ Analyze API error: bad image (Status: 500)") rust
                 (VObj [("answer", VStr "Remove infected leaves.")]) in
  delivered fetched = None
  /\ handleSendClick_settled fetched st = (Ok tt, after)
  /\ (ToBoolean (file st) = true ->
      handleSendClick (fun _ => fetched) st = (Ok tt, after)).
Proof.
  split; [reflexivity |].
  exact (failed_analyze_leaves_result (answers 500 (VObj [("error", VStr "bad image")]))
           (mkState false false (VFile leaf) (VStr (file_url leaf)) false VNull rust
              (VObj [("answer", VStr "Remove infected leaves.")]))
           eq_refl).
Defined.

(** ** C2: an invalid selection *)

(** C2 (the code departs from it): on an invalid selection (nothing, or a
    file whose type does not start with "image/") [handleImageFile] clears
    the file, the preview URL and both results, and it clears the notice as
    well: [resetState], called last, overwrites the validation message that
    was queued first. *)
Theorem invalid_selection_clears_notice (c : value) (st : State) :
  is_selection c = true -> is_image_file c = false ->
  let st' := snd (handleImageFile c st) in
  file st' = VNull /\ previewUrl st' = VNull
  /\ analyzeResult st' = VNull /\ ragResult st' = VNull
  /\ error st' = VNull.
Proof.
  intros Hs Hi st'. subst st'. rewrite (selection_rejected c st Hs Hi). cbn. auto.
Qed.

Lemma invalid_selection_clears_notice_witness :
  is_selection (VFile report) = true /\ is_image_file (VFile report) = false
  /\ (let st' := snd (handleImageFile (VFile report) initial) in
      file st' = VNull /\ previewUrl st' = VNull
      /\ analyzeResult st' = VNull /\ ragResult st' = VNull
      /\ error st' = VNull).
Proof.
  split; [reflexivity | split; [reflexivity |]].
  apply invalid_selection_clears_notice; reflexivity.
Defined.

(** The valid branch queues its notice after [resetState], and keeps it. *)
Lemma valid_selection_keeps_notice :
  error (snd (handleImageFile (VFile leaf) initial))
  = VStr "✅ Image updated successfully!".
Proof. reflexivity. Qed.

(** ** C6: candidates that make [handleImageFile] throw *)

(** C6, as stated, fails: an object without a [type] makes the condition of
    [handleImageFile] throw a [TypeError]; neither branch runs. *)
Lemma object_without_type_throws :
  handleImageFile (VObj [("name", VStr "notes.txt")]) initial
  = (Throw (TypeError "Cannot read properties of undefined (reading 'startsWith')"),
     initial).
Proof. reflexivity. Qed.

(** More generally, any candidate that is there but has no string as its
    [type] makes the condition throw, and the state stays as it was. *)
Lemma candidate_without_type_throws (c : value) (st : State) :
  is_nullish c = false ->
  (forall s, lookup "type" (properties c) <> VStr s) ->
  exists e, handleImageFile c st = (Throw e, st).
Proof.
  intros N T. run_handler. unfold is_image, get, bind, call_startsWith. rewrite N.
  destruct (lookup "type" (properties c)) eqn:L;
    try (eexists; destruct st; reflexivity).
  elim (T s). reflexivity.
Qed.

(** C6, amended: on what the drop zone hands over ([null], [undefined] or a
    [File], whose type is always a string) [handleImageFile] does not throw
    and takes exactly one of its two branches: an image file is stored with
    its preview URL and the success notice, anything else clears the file and
    the preview URL; both branches clear the two results. *)
Theorem selection_never_throws (c : value) (st : State) :
  is_selection c = true ->
  exists st',
    handleImageFile c st = (Ok tt, st')
    /\ analyzeResult st' = VNull /\ ragResult st' = VNull
    /\ if is_image_file c
       then file st' = c /\ (exists u, previewUrl st' = VStr u)
            /\ error st' = VStr "✅ Image updated successfully!"
       else file st' = VNull /\ previewUrl st' = VNull.
Proof.
  intros Hs. destruct (is_image_file c) eqn:Hi.
  - destruct c; try discriminate. cbn in Hi.
    rewrite (image_file_accepted f st Hi). eexists. split; [reflexivity |]. cbn. repeat split; eauto.
  - rewrite (selection_rejected c st Hs Hi). eexists. split; [reflexivity |]. cbn. auto.
Qed.

Lemma selection_never_throws_witness :
  is_selection (VFile leaf) = true
  /\ exists st',
       handleImageFile (VFile leaf) initial = (Ok tt, st')
       /\ analyzeResult st' = VNull /\ ragResult st' = VNull
       /\ if is_image_file (VFile leaf)
          then file st' = VFile leaf /\ (exists u, previewUrl st' = VStr u)
               /\ error st' = VStr "✅ Image updated successfully!"
          else file st' = VNull /\ previewUrl st' = VNull.
Proof.
  split; [reflexivity | apply selection_never_throws; reflexivity].
Defined.

(** ** C7: the loading flags *)

(** C7: however an analyze or a detail request settles (a success, a
    rejection by the server, a failure of the transport or of the parsing),
    the handler ends without a throw and its loading flag is false. *)
Theorem loading_flags_cleared (fetched : result Response) (st : State) :
  (fst (handleSendClick_settled fetched st) = Ok tt
   /\ loading (snd (handleSendClick_settled fetched st)) = false)
  /\ (fst (handleSeeMoreClick_settled fetched st) = Ok tt
      /\ ragLoading (snd (handleSeeMoreClick_settled fetched st)) = false).
Proof.
  destruct (analyze_settled fetched st) as [m1 E1].
  destruct (detail_settled fetched st) as [m2 E2].
  rewrite E1, E2. destruct (delivered fetched); cbn; auto.
Qed.

(** The same for a whole call: when the click sends a request, the call
    ends with the flag down, whatever the server answers. *)
Lemma analyze_call_clears_loading (fetch : Request -> result Response) (st : State) :
  ToBoolean (file st) = true ->
  fst (handleSendClick fetch st) = Ok tt
  /\ loading (snd (handleSendClick fetch st)) = false.
Proof.
  intros F. unfold handleSendClick, and_then.
  destruct st as [l r f u d e a g]. cbn [file] in F.
  cbv [handleSendClick_click and_then read setLoading ret file]. rewrite F.
  cbv beta iota zeta delta [negb].
  match goal with
  | |- context [handleSendClick_settled ?x ?y] =>
      destruct (analyze_settled x y) as [msg E]; rewrite E
  end.
  destruct (delivered _); cbn; auto.
Qed.

Lemma detail_call_clears_loading (fetch : Request -> result Response) (st : State) :
  ToBoolean (analyzeResult st) = true ->
  fst (handleSeeMoreClick fetch st) = Ok tt
  /\ ragLoading (snd (handleSeeMoreClick fetch st)) = false.
Proof.
  intros F. unfold handleSeeMoreClick, and_then.
  destruct st as [l r f u d e a g]. cbn [analyzeResult] in F.
  cbv [handleSeeMoreClick_click and_then read setRagLoading ret analyzeResult]. rewrite F.
  cbv beta iota zeta delta [negb].
  match goal with
  | |- context [handleSeeMoreClick_settled ?x ?y] =>
      destruct (detail_settled x y) as [msg E]; rewrite E
  end.
  destruct (delivered _); cbn; auto.
Qed.

(** A body that is not JSON and a connection that fails end in the notice
    and with the flag down. *)
Example analyze_transport_failures :
  let waiting := mkState true false (VFile leaf) (VStr (file_url leaf)) false VNull VNull VNull in
  snd (handleSendClick_settled
         (Ok {| status := 200; json := Throw (SyntaxError "Unexpected token '<'") |}) waiting)
  = mkState false false (VFile leaf) (VStr (file_url leaf)) false
      (VStr "❌ Error uploading image: Unexpected token '<'") VNull VNull
  /\ snd (handleSendClick_settled (Throw (TypeError "Failed to fetch")) waiting)
     = mkState false false (VFile leaf) (VStr (file_url leaf)) false
         (VStr "❌ Error uploading image: Failed to fetch") VNull VNull.
Proof. split; reflexivity. Qed.

(** ** Letters and case *)

Lemma byte_of_bounds (c : ascii) : 0 <= byte_of c < 256.
Proof.
  unfold byte_of. pose proof (N_ascii_bounded c). lia.
Qed.

Lemma ascii_of_byte (c : ascii) : ascii_of_Z (byte_of c) = c.
Proof.
  unfold ascii_of_Z, byte_of. rewrite N2Z.id. apply ascii_N_embedding.
Qed.

Lemma byte_of_ascii (z : Z) : 0 <= z < 256 -> byte_of (ascii_of_Z z) = z.
Proof.
  intros H. unfold ascii_of_Z, byte_of.
  rewrite N_ascii_embedding by lia. lia.
Qed.

Lemma byte_of_inj (c d : ascii) : byte_of c = byte_of d -> c = d.
Proof.
  intros H. rewrite <- (ascii_of_byte c), <- (ascii_of_byte d), H. reflexivity.
Qed.

Lemma ascii_eqb_bytes (c d : ascii) : Ascii.eqb c d = (byte_of c =? byte_of d).
Proof.
  destruct (Ascii.eqb_spec c d) as [-> | N].
  - symmetry. apply Z.eqb_refl.
  - symmetry. apply Z.eqb_neq. intros E. apply N, byte_of_inj, E.
Qed.

(** A character lowers to the lower-case letter [w] when it is [w] or its
    capital. *)
Lemma lower_ascii_letter (c w : ascii) :
  is_lower w = true ->
  Ascii.eqb (lower_ascii c) w = Ascii.eqb c w || Ascii.eqb c (capital w).
Proof.
  unfold is_lower, lower_ascii, capital. intros H.
  apply andb_true_iff in H. destruct H as [H1 H2].
  apply Z.leb_le in H1. apply Z.leb_le in H2.
  pose proof (byte_of_bounds c) as Bc.
  rewrite !ascii_eqb_bytes.
  rewrite (byte_of_ascii (byte_of w - 32)) by lia.
  destruct (65 <=? byte_of c) eqn:L1; destruct (byte_of c <=? 90) eqn:L2; cbn [andb];
    try rewrite byte_of_ascii by (apply Z.leb_le in L1; apply Z.leb_le in L2; lia);
    repeat match goal with
           | |- context [?a =? ?b] => destruct (Z.eqb_spec a b)
           end; cbn; try reflexivity;
    try (apply Z.leb_le in L1); try (apply Z.leb_le in L2);
    try (apply Z.leb_gt in L1); try (apply Z.leb_gt in L2); lia.
Qed.

Lemma lower_case_word (word s : string) :
  forallb is_lower (list_ascii_of_string word) = true ->
  String.eqb (toLowerCase s) word = same_word word s.
Proof.
  revert s. induction word as [| w word IH]; intros [| c s] H; try reflexivity.
  cbn in H. apply andb_true_iff in H. destruct H as [Hw H].
  cbn [toLowerCase same_word String.eqb].
  rewrite <- (lower_ascii_letter c w Hw), <- (IH s H).
  destruct (Ascii.eqb (lower_ascii c) w); reflexivity.
Qed.

(** ** C9: the doughnut *)

Lemma severity_colour_of_string (s : string) :
  getSeverityColor (VStr s) = Ok (severity_colour (VStr s)).
Proof.
  unfold getSeverityColor, severity_colour, call_toLowerCase, is_string, bind.
  cbn [is_nullish].
  rewrite !lower_case_word by reflexivity. reflexivity.
Qed.

Lemma severity_colour_of_nullish (c : value) :
  is_nullish c = true -> getSeverityColor c = Ok (severity_colour c).
Proof.
  destruct c; try discriminate; reflexivity.
Qed.

(** C9, as stated, fails: the class "MILD" is none of the four labels, yet
    its slice is amber, not grey; and a class that is not a string (here the
    number 3) gives no slices at all, the projection throws. *)
Lemma class_in_capitals_is_amber :
  listed_colour (VStr "MILD") = "#9E9E9E"
  /\ doughnut_backgroundColor_of
       (doughnutData
          (VObj [("disease_segmentation",
                  VObj [("severity", VNum (of_Z 35)); ("classification", VStr "MILD")])]))
     = Some ["#FFC107"; "#4CAF50"]
  /\ doughnutData
       (VObj [("disease_segmentation",
               VObj [("severity", VNum (of_Z 35)); ("classification", VNum (of_Z 3))])])
     = Throw (TypeError "level?.toLowerCase is not a function").
Proof. repeat split; vm_compute; reflexivity. Qed.

(** C9, amended: for every analysis result whose severity class is a string
    or missing, the doughnut has the two slices "Diseased" and "Healthy";
    "Diseased" is the severity value (0 when it is missing or falsy),
    "Healthy" is 100 minus that value; the diseased slice takes its colour
    from the table read without regard to case (mild amber, moderate orange,
    severe red, healthy green, any other string or a missing class grey) and
    the healthy slice is green. *)
Theorem doughnut_slices (a : value) :
  is_nullish (classification a) = true \/ (exists s, classification a = VStr s) ->
  let diseased := truthy_or (severity a) (VNum (of_Z 0)) in
  doughnutData a =
    Ok {| doughnut_labels := ["Diseased"; "Healthy"];
          doughnut_data := [diseased; VNum (subtract (of_Z 100) (ToNumber diseased))];
          doughnut_backgroundColor := [severity_colour (classification a); "#4CAF50"] |}.
Proof.
  intros H diseased. unfold doughnutData. fold (classification a).
  assert (E : getSeverityColor (classification a) = Ok (severity_colour (classification a))).
  { destruct H as [H | [s H]].
    - apply severity_colour_of_nullish, H.
    - rewrite H. apply severity_colour_of_string. }
  rewrite E. reflexivity.
Qed.

(** The instance of C9: [{severity: 35, classification: "Moderate"}] gives
    "Diseased" = 35 in orange and "Healthy" = 65 in green. *)
Lemma doughnut_slices_witness :
  (is_nullish (classification rust) = true \/ (exists s, classification rust = VStr s))
  /\ doughnutData rust =
       Ok {| doughnut_labels := ["Diseased"; "Healthy"];
             doughnut_data := [VNum (of_Z 35); VNum (of_Z 65)];
             doughnut_backgroundColor := ["#FF9800"; "#4CAF50"] |}.
Proof.
  split.
  - right. exists "Moderate". reflexivity.
  - exact (doughnut_slices rust (or_intror (ex_intro _ "Moderate" eq_refl))).
Defined.

(** ** C10: the payload of the detail request *)

(** C10, as stated, fails: a result whose predicted class is present, the
    empty string, goes out as "Unknown". *)
Lemma empty_label_goes_out_as_unknown :
  let a := VObj [("disease_classification", VObj [("predicted_class", VStr "")]);
                 ("disease_segmentation",
                  VObj [("severity", VNum (of_Z 35)); ("classification", VStr "Moderate")])] in
  predicted_class a = VStr ""
  /\ lookup "predicted_class" (properties (payload a)) = VStr "Unknown".
Proof. split; reflexivity. Qed.

(** C10, amended: for every analysis result on the screen, a click on "See
    More Details" sends to the detail endpoint a JSON payload with the fixed
    instruction and three fields: [predicted_class], the predicted class or
    "Unknown" when that is missing or falsy (the empty string included);
    [severity], the severity or 0 when missing or falsy; [severity_class],
    the severity class or "Unknown" when missing or falsy. *)
Theorem detail_payload (st : State) :
  ToBoolean (analyzeResult st) = true ->
  let a := analyzeResult st in
  fst (handleSeeMoreClick_click st) =
    Ok (Some
          {| url := ragUrl; method := "POST";
             headers := [("Content-Type", "application/json")];
             body :=
               JsonText
                 (VObj
                    [("messages",
                       VArr [VObj [("content",
                                    VStr "Tell me about this disease and also provide prevention methods for this severity level.")]]);
                     ("predicted_class", truthy_or (predicted_class a) (VStr "Unknown"));
                     ("severity", truthy_or (severity a) (VNum (of_Z 0)));
                     ("severity_class", truthy_or (classification a) (VStr "Unknown"))]) |}).
Proof.
  intros H a. subst a. destruct st as [l r f u d e a g]. cbn [analyzeResult] in *.
  run_handler. rewrite H. reflexivity.
Qed.

Lemma detail_payload_witness :
  let st := mkState false false (VFile leaf) (VStr (file_url leaf)) false VNull rust VNull in
  ToBoolean (analyzeResult st) = true
  /\ fst (handleSeeMoreClick_click st) =
       Ok (Some
             {| url := ragUrl; method := "POST";
                headers := [("Content-Type", "application/json")];
                body :=
                  JsonText
                    (VObj
                       [("messages",
                          VArr [VObj [("content",
                                       VStr "Tell me about this disease and also provide prevention methods for this severity level.")]]);
                        ("predicted_class", VStr "Rust");
                        ("severity", VNum (of_Z 35));
                        ("severity_class", VStr "Moderate")]) |}).
Proof.
  split; [reflexivity |].
  exact (detail_payload
           (mkState false false (VFile leaf) (VStr (file_url leaf)) false VNull rust VNull)
           eq_refl).
Defined.

(** The fallbacks of the payload on a result without any of the fields. *)
Example detail_payload_defaults :
  payload (VObj []) =
    VObj [("messages", VArr [VObj [("content", VStr instruction)]]);
          ("predicted_class", VStr "Unknown");
          ("severity", VNum (of_Z 0));
          ("severity_class", VStr "Unknown")].
Proof. reflexivity. Qed.

(** ** C8: the text of the detail section *)






(** The three outcomes on the screen: a text, the stand-in, nothing. *)
Example detail_text_shown :
  ragContent (VObj [("response", VStr "Rust is a fungal disease.")])
  = Markdown (VStr "Rust is a fungal disease.")
  /\ ragContent (VObj [("status", VStr "done")]) = Text "No response available"
  /\ guarded VNull (Ok (ragContent VNull)) = Ok Blank.
Proof. repeat split. Qed.

(** ** C4: the bar series *)






Lemma bar_data_of_map (a p : value) :
  probabilities a = Ok p ->
  is_nullish p = false ->
  barData a =
    Ok {| bar_labels := map fst (enumerable p);
          bar_data :=
            map (fun v => toFixed2 (multiply (ToNumber v) (of_Z 100)))
              (map snd (enumerable p));
          bar_backgroundColor :=
            map (fun key => if String.eqb (toLowerCase key) "healthy"
                            then healthyColor else diseaseColor)
              (map fst (enumerable p)) |}.
Proof.
  intros Hp N. unfold barData, Object_keys, Object_values. rewrite Hp. cbn [bind].
  rewrite N. reflexivity.
Qed.

Lemma probabilities_not_nullish (a p : value) :
  probabilities a = Ok p -> is_nullish p = false.
Proof.
  unfold probabilities, bind, or.
  destruct (get a "disease_classification") as [c | e]; [| discriminate].
  destruct (get c "probabilities") as [q | e]; [| discriminate].
  destruct (ToBoolean q) eqn:T; intros E; inversion E; subst; [| reflexivity].
  destruct p; try discriminate; reflexivity.
Qed.



(** For a map that is an object the entries are its properties. *)
Lemma bar_series_of_object (a c : value) (props : list (string * value)) :
  get a "disease_classification" = Ok c ->
  get c "probabilities" = Ok (VObj props) ->
  exists b,
    barData a = Ok b
    /\ bar_labels b = map fst props
    /\ List.length (bar_data b) = List.length props
    /\ List.length (bar_backgroundColor b) = List.length props.
Proof.
  intros Hc Hp.
  assert (P : probabilities a = Ok (VObj props)).
  { unfold probabilities. rewrite Hc. cbn [bind]. rewrite Hp. reflexivity. }
  rewrite (bar_data_of_map a _ P eq_refl). eexists. split; [reflexivity |].
  cbn [bar_labels bar_data bar_backgroundColor enumerable].
  rewrite !length_map. auto.
Qed.

(** The product is the one of the numbers: [0.29 * 100] is just above 29,
    [1.005 * 100] just below 100.5, and the digits follow the product. *)
Example bar_values_follow_the_product :
  map (fun x => toFixed2 (multiply (StringToNumber x) (of_Z 100)))
    ["0.29"; "1.005"; "0.00125"; "1"; "0"; "-0.5"; "1e-9"]
  = ["29.00"; "100.50"; "0.13"; "100.00"; "0.00"; "-50.00"; "0.00"].
Proof. vm_compute. reflexivity. Qed.

(** ** C5: a result without its classification *)

(** The part of C5 that holds: with the classification in place, missing,
    [null] or empty probabilities give the empty series. *)
Lemma empty_probabilities_empty_series (a c p : value) :
  get a "disease_classification" = Ok c ->
  get c "probabilities" = Ok p ->
  ToBoolean p = false \/ p = VObj [] ->
  barData a = Ok {| bar_labels := []; bar_data := []; bar_backgroundColor := [] |}.
Proof.
  intros Hc Hp H. unfold barData, probabilities. rewrite Hc. cbn [bind]. rewrite Hp.
  cbn [bind]. unfold or. destruct H as [H | ->]; [rewrite H |]; reflexivity.
Qed.

Lemma bar_needs_classification (a : value) :
  ToBoolean a = true ->
  is_nullish (get_opt a "disease_classification") = true ->
  exists e, barData a = Throw e.
Proof.
  intros T N. unfold barData, probabilities, get.
  assert (Ha : is_nullish a = false) by (destruct a; try discriminate; reflexivity).
  rewrite Ha. unfold get_opt in N. rewrite Ha in N. cbn [bind]. rewrite N.
  eexists. reflexivity.
Qed.

(** C5 (the code departs from it): for a result on the screen that has no
    [disease_classification], the bar series is not empty but an error: the
    unguarded read throws, the render throws with it, and no event is
    possible on the page any more.  The reads of the same result for the
    doughnut and for the detail payload are guarded and go through. *)
Theorem missing_classification_breaks_render (p : Page) :
  ToBoolean (analyzeResult (ui p)) = true ->
  is_nullish (get_opt (analyzeResult (ui p)) "disease_classification") = true ->
  (exists e, barData (analyzeResult (ui p)) = Throw e /\ render (ui p) = Throw e)
  /\ (forall ev, step p ev = None)
  /\ lookup "predicted_class" (properties (payload (analyzeResult (ui p)))) = VStr "Unknown".
Proof.
  intros T N.
  destruct (bar_needs_classification _ T N) as [e E].
  assert (R : render (ui p) = Throw e).
  { unfold render, guarded. rewrite T, E. reflexivity. }
  split; [exists e; auto |]. split.
  - intros ev. unfold step. rewrite R. reflexivity.
  - unfold payload. cbn [properties enumerable lookup String.eqb Ascii.eqb Bool.eqb].
    unfold get_opt at 1. unfold is_nullish at 1.
    destruct (get_opt (analyzeResult (ui p)) "disease_classification");
      try discriminate; reflexivity.
Qed.

Lemma missing_classification_breaks_render_witness :
  let a := VObj [("disease_segmentation",
                  VObj [("severity", VNum (of_Z 35)); ("classification", VStr "Moderate")])] in
  let p := {| ui := mkState false false (VFile leaf) (VStr (file_url leaf)) false VNull a VNull;
              analyzing := []; detailing := [] |} in
  ToBoolean (analyzeResult (ui p)) = true
  /\ is_nullish (get_opt (analyzeResult (ui p)) "disease_classification") = true
  /\ ((exists e, barData (analyzeResult (ui p)) = Throw e /\ render (ui p) = Throw e)
      /\ (forall ev, step p ev = None)
      /\ lookup "predicted_class" (properties (payload (analyzeResult (ui p)))) = VStr "Unknown").
Proof.
  split; [reflexivity | split; [reflexivity |]].
  apply missing_classification_breaks_render; reflexivity.
Defined.

(** The same on the page itself: a success answer without the classification
    takes the component off the screen, where the doughnut of that very
    result would have been drawn. *)
Example answer_without_classification :
  let body := VObj [("disease_segmentation",
                     VObj [("severity", VNum (of_Z 35)); ("classification", VStr "Moderate")])] in
  option_map (fun p => render (ui p))
    (run start [SelectFile (VFile leaf); ClickAnalyze; AnalyzeSettles (answers 200 body)])
  = Some (Throw (TypeError "Cannot read properties of undefined (reading 'probabilities')"))
  /\ doughnutData body =
       Ok {| doughnut_labels := ["Diseased"; "Healthy"];
             doughnut_data := [VNum (of_Z 35); VNum (of_Z 65)];
             doughnut_backgroundColor := ["#FF9800"; "#4CAF50"] |}.
Proof. split; vm_compute; reflexivity. Qed.

(** ** C3: the two triggers and the requests in flight *)

Lemma select_keeps_flags (c : value) (st : State) :
  loading (snd (handleImageFile c st)) = loading st
  /\ ragLoading (snd (handleImageFile c st)) = ragLoading st.
Proof.
  run_handler.
  destruct (is_image c) as [v | e]; [| destruct st; split; reflexivity].
  destruct (ToBoolean v); [destruct (createObjectURL c) |];
    destruct st; split; reflexivity.
Qed.

Lemma analyze_click (st : State) :
  handleSendClick_click st =
    if ToBoolean (file st)
    then (Ok (Some {| url := analyzeUrl; method := "POST"; headers := [];
                      body := FormData [("file", file st)] |}),
          mkState true (ragLoading st) (file st) (previewUrl st) (dragActive st)
            (error st) (analyzeResult st) (ragResult st))
    else (Ok None,
          mkState (loading st) (ragLoading st) (file st) (previewUrl st) (dragActive st)
            (VStr "❌ Please select or drop an image") (analyzeResult st) (ragResult st)).
Proof.
  destruct st as [l r f u d e a g]. run_handler. destruct (ToBoolean f); reflexivity.
Qed.

Lemma see_more_click (st : State) :
  handleSeeMoreClick_click st =
    if ToBoolean (analyzeResult st)
    then (Ok (Some {| url := ragUrl; method := "POST";
                      headers := [("Content-Type", "application/json")];
                      body := JsonText (payload (analyzeResult st)) |}),
          mkState (loading st) true (file st) (previewUrl st) (dragActive st)
            (error st) (analyzeResult st) (ragResult st))
    else (Ok None,
          mkState (loading st) (ragLoading st) (file st) (previewUrl st) (dragActive st)
            (VStr "❌ No analysis data available to fetch more details")
            (analyzeResult st) (ragResult st)).
Proof.
  destruct st as [l r f u d e a g]. run_handler. destruct (ToBoolean a); reflexivity.
Qed.

(** The [disabled] attributes of the two buttons. *)
Lemma render_buttons (st : State) (v : View) :
  render st = Ok v ->
  analyze_disabled v = loading st || negb (ToBoolean (file st))
  /\ forall r, results v = Element r ->
       ToBoolean (analyzeResult st) = true
       /\ seeMore_disabled r = loading st || ragLoading st.
Proof.
  unfold render, guarded, bind.
  destruct (ToBoolean (analyzeResult st)).
  - destruct (barData (analyzeResult st)); [| discriminate].
    destruct (doughnutData (analyzeResult st)); [| discriminate].
    destruct (ToBoolean (ragResult st)); intros E; inversion E; subst; cbn;
      (split; [reflexivity | intros r R; inversion R; subst; cbn; auto]).
  - destruct (ToBoolean (ragResult st)); intros E; inversion E; subst; cbn;
      (split; [reflexivity |
               intros r R; destruct (analyzeResult st); discriminate]).
Qed.

Lemma length_at_most_one {A : Type} (x : A) (l : list A) :
  (List.length (x :: l) <= 1)%nat -> l = [].
Proof. destruct l; cbn; [reflexivity | lia]. Qed.

Lemma step_accounted (p p' : Page) (ev : event) :
  accounted p -> step p ev = Some p' -> accounted p'.
Proof.
  intros (La & Ld & Na & Nd & Ua & Ud). unfold step.
  destruct (render (ui p)) as [v | e] eqn:R; [| discriminate].
  destruct (render_buttons _ _ R) as [Ba Bs].
  destruct ev as [c | | f | | f].
  - intros E. inversion E; subst; clear E. unfold accounted. cbn [ui analyzing detailing].
    destruct (select_keeps_flags c (ui p)) as [-> ->]. repeat split; auto.
  - rewrite Ba.
    destruct (loading (ui p)) eqn:Dl; [discriminate |].
    destruct (ToBoolean (file (ui p))) eqn:Df; [| discriminate].
    cbn [orb negb]. rewrite analyze_click, Df. intros E. inversion E; subst; clear E.
    unfold accounted. cbn [ui analyzing detailing loading ragLoading sent option_list].
    rewrite (La eq_refl). cbn. repeat split; auto; discriminate.
  - destruct (analyzing p) as [| rq rest] eqn:A; [discriminate |].
    intros E. inversion E; subst; clear E.
    apply length_at_most_one in Na. subst rest.
    destruct (analyze_settled f (ui p)) as [msg S]. rewrite S.
    unfold accounted. cbn [ui analyzing detailing snd].
    destruct (delivered f); cbn [loading ragLoading]; repeat split; auto.
  - destruct (results v) as [| t | r] eqn:Rv; try discriminate.
    destruct (Bs r eq_refl) as [Ta Sd]. rewrite Sd.
    destruct (loading (ui p)) eqn:Dl; [discriminate |].
    destruct (ragLoading (ui p)) eqn:Dr; [discriminate |].
    cbn [orb]. rewrite see_more_click, Ta. intros E. inversion E; subst; clear E.
    unfold accounted. cbn [ui analyzing detailing loading ragLoading sent option_list].
    rewrite (Ld eq_refl). cbn. repeat split; auto; discriminate.
  - destruct (detailing p) as [| rq rest] eqn:A; [discriminate |].
    intros E. inversion E; subst; clear E.
    apply length_at_most_one in Nd. subst rest.
    destruct (detail_settled f (ui p)) as [msg S]. rewrite S.
    unfold accounted. cbn [ui analyzing detailing snd].
    destruct (delivered f); cbn [loading ragLoading]; repeat split; auto.
Qed.

Lemma run_accounted (evs : list event) (p p' : Page) :
  accounted p -> run p evs = Some p' -> accounted p'.
Proof.
  revert p. induction evs as [| ev evs IH]; intros p A; cbn [run].
  - intros E. inversion E; subst. exact A.
  - destruct (step p ev) as [q |] eqn:S; [| discriminate].
    apply IH. exact (step_accounted p q ev A S).
Qed.

Lemma reachable_accounted (p : Page) : reachable p -> accounted p.
Proof.
  intros [evs R]. apply (run_accounted evs start p); [| exact R].
  unfold accounted, start. cbn. repeat split; auto.
Qed.

(** No flag is left up: on every page that can be reached a loading flag is
    set exactly while a request of its kind is in flight. *)
Lemma flags_follow_requests (p : Page) :
  reachable p ->
  (loading (ui p) = true <-> analyzing p <> [])
  /\ (ragLoading (ui p) = true <-> detailing p <> []).
Proof.
  intros Rp. destruct (reachable_accounted p Rp) as (La & Ld & _ & _ & Ua & Ud).
  split; split.
  - intros L E. rewrite (Ua E) in L. discriminate.
  - intros N. destruct (loading (ui p)); [reflexivity | elim N; auto].
  - intros L E. rewrite (Ud E) in L. discriminate.
  - intros N. destruct (ragLoading (ui p)); [reflexivity | elim N; auto].
Qed.

Lemma awaiting_details_reachable : reachable awaiting_details.
Proof.
  exists [SelectFile (VFile leaf); ClickAnalyze; AnalyzeSettles (answers 200 rust);
          ClickSeeMore].
  vm_compute. reflexivity.
Defined.

(** C3, as stated, fails: with the details of a leaf still being fetched,
    the Analyze button is enabled, and a click on it starts an analysis next
    to the detail request in flight. *)
Lemma analysis_starts_during_detail :
  run start [SelectFile (VFile leaf); ClickAnalyze; AnalyzeSettles (answers 200 rust);
             ClickSeeMore]
  = Some awaiting_details
  /\ ragLoading (ui awaiting_details) = true
  /\ List.length (detailing awaiting_details) = 1%nat
  /\ match render (ui awaiting_details) with
     | Ok v => Some (analyze_disabled v)
     | Throw _ => None
     end = Some false
  /\ option_map
       (fun p => (List.length (analyzing p), List.length (detailing p),
                  loading (ui p), ragLoading (ui p)))
       (step awaiting_details ClickAnalyze)
     = Some (1%nat, 1%nat, true, true).
Proof. repeat split; vm_compute; reflexivity. Qed.

(** C3, amended: on every page that can be reached, the detail trigger is
    disabled exactly when [loading] or [ragLoading] is set, and the analyze
    trigger exactly when [loading] is set or no file is selected; the flags
    are set while a request of their kind is in flight; so a detail request
    starts only when nothing is in flight, and an analysis only when no other
    analysis is in flight.  (A detail request in flight does not disable the
    analyze trigger.) *)
Theorem triggers_and_requests (p : Page) :
  reachable p ->
  (forall v, render (ui p) = Ok v ->
     (analyze_disabled v = true <->
        loading (ui p) = true \/ ToBoolean (file (ui p)) = false)
     /\ forall r, results v = Element r ->
          (seeMore_disabled r = true <->
             loading (ui p) = true \/ ragLoading (ui p) = true))
  /\ (analyzing p <> [] -> loading (ui p) = true)
  /\ (detailing p <> [] -> ragLoading (ui p) = true)
  /\ (forall p', step p ClickSeeMore = Some p' -> analyzing p = [] /\ detailing p = [])
  /\ (forall p', step p ClickAnalyze = Some p' -> analyzing p = []).
Proof.
  intros Rp. destruct (reachable_accounted p Rp) as (La & Ld & _).
  split; [| split; [| split; [| split]]].
  - intros v R. destruct (render_buttons _ _ R) as [Ba Bs]. split.
    + rewrite Ba, orb_true_iff, negb_true_iff. reflexivity.
    + intros r Rv. destruct (Bs r Rv) as [_ Sd].
      rewrite Sd, orb_true_iff. reflexivity.
  - intros N. destruct (loading (ui p)); [reflexivity | elim N; auto].
  - intros N. destruct (ragLoading (ui p)); [reflexivity | elim N; auto].
  - intros p'. unfold step.
    destruct (render (ui p)) as [v | e] eqn:R; [| discriminate].
    destruct (render_buttons _ _ R) as [_ Bs].
    destruct (results v) as [| t | r] eqn:Rv; try discriminate.
    destruct (Bs r eq_refl) as [_ Sd]. rewrite Sd.
    destruct (loading (ui p)) eqn:Dl; [discriminate |].
    destruct (ragLoading (ui p)) eqn:Dr; [discriminate |]. auto.
  - intros p'. unfold step.
    destruct (render (ui p)) as [v | e] eqn:R; [| discriminate].
    destruct (render_buttons _ _ R) as [Ba _].
    rewrite Ba. destruct (loading (ui p)) eqn:Dl; [discriminate |]. auto.
Qed.

Lemma triggers_and_requests_witness :
  reachable awaiting_details
  /\ ((forall v, render (ui awaiting_details) = Ok v ->
         (analyze_disabled v = true <->
            loading (ui awaiting_details) = true
            \/ ToBoolean (file (ui awaiting_details)) = false)
         /\ forall r, results v = Element r ->
              (seeMore_disabled r = true <->
                 loading (ui awaiting_details) = true
                 \/ ragLoading (ui awaiting_details) = true))
      /\ (analyzing awaiting_details <> [] -> loading (ui awaiting_details) = true)
      /\ (detailing awaiting_details <> [] -> ragLoading (ui awaiting_details) = true)
      /\ (forall p', step awaiting_details ClickSeeMore = Some p' ->
            analyzing awaiting_details = [] /\ detailing awaiting_details = [])
      /\ (forall p', step awaiting_details ClickAnalyze = Some p' ->
            analyzing awaiting_details = [])).
Proof.
  split; [exact awaiting_details_reachable |].
  exact (triggers_and_requests awaiting_details awaiting_details_reachable).
Defined.

(** What the overlap can do: the details asked for the first leaf arrive
    after the analysis of a second one and are shown next to it. *)
Example details_of_the_previous_result :
  let blight :=
    VObj [("disease_classification",
            VObj [("predicted_class", VStr "Blight");
                  ("probabilities", VObj [("Blight", VNum n0_9); ("Healthy", VNum n0_1)])]);
          ("disease_segmentation",
            VObj [("severity", VNum (of_Z 80)); ("classification", VStr "Severe")])] in
  let about_rust := VObj [("answer", VStr "Rust is a fungal disease.")] in
  option_map (fun p => (predicted_class (analyzeResult (ui p)), ragContent (ragResult (ui p))))
    (run awaiting_details
       [ClickAnalyze; AnalyzeSettles (answers 200 blight);
        DetailSettles (answers 200 about_rust)])
  = Some (VStr "Blight", Markdown (VStr "Rust is a fungal disease.")).
Proof. vm_compute. reflexivity. Qed.

(* ===================================================================== *)
(** * Part 4: further properties of the component *)
(* ===================================================================== *)

(** ** Requests in flight *)




(** ** The guards of the click handlers *)

(** X2: whenever the Analyze button lets a click through, the click sends
    exactly one request, a POST of the selected file as the form field
    [file] to the analysis endpoint, raises [loading] and changes nothing
    else; the "Please select or drop an image" branch of [handleSendClick] is
    never taken from the button. *)
Theorem analyze_click_uploads (p p' : Page) :
  step p ClickAnalyze = Some p' ->
  ToBoolean (file (ui p)) = true
  /\ analyzing p' =
       (analyzing p ++ [{| url := analyzeUrl; method := "POST"; headers := [];
                          body := FormData [("file", file (ui p))] |}])%list
  /\ detailing p' = detailing p
  /\ ui p' = mkState true (ragLoading (ui p)) (file (ui p)) (previewUrl (ui p))
               (dragActive (ui p)) (error (ui p)) (analyzeResult (ui p))
               (ragResult (ui p)).
Proof.
  unfold step.
  destruct (render (ui p)) as [v | e] eqn:R; [| discriminate].
  destruct (render_buttons _ _ R) as [Ba _]. rewrite Ba.
  destruct (loading (ui p)) eqn:Dl; [discriminate |].
  destruct (ToBoolean (file (ui p))) eqn:Df; [| discriminate].
  cbn [orb negb]. rewrite analyze_click, Df.
  intros E. inversion E; subst; clear E. cbn. auto.
Qed.

Lemma analyze_click_uploads_witness :
  step leaf_selected ClickAnalyze = Some awaiting_analysis
  /\ (ToBoolean (file (ui leaf_selected)) = true
      /\ analyzing awaiting_analysis =
           (analyzing leaf_selected
           ++ [{| url := analyzeUrl; method := "POST"; headers := [];
                  body := FormData [("file", file (ui leaf_selected))] |}])%list
      /\ detailing awaiting_analysis = detailing leaf_selected
      /\ ui awaiting_analysis =
           mkState true (ragLoading (ui leaf_selected)) (file (ui leaf_selected))
             (previewUrl (ui leaf_selected)) (dragActive (ui leaf_selected))
             (error (ui leaf_selected)) (analyzeResult (ui leaf_selected))
             (ragResult (ui leaf_selected))).
Proof.
  split; [reflexivity |].
  exact (analyze_click_uploads leaf_selected awaiting_analysis eq_refl).
Defined.

(** X3: whenever the "See More Details" button lets a click through, the
    click sends exactly one request, the JSON payload built from the result
    on the screen, to the detail endpoint, raises [ragLoading] and changes
    nothing else; the "No analysis data available" branch of
    [handleSeeMoreClick] is never taken from the button. *)
Theorem see_more_click_asks (p p' : Page) :
  step p ClickSeeMore = Some p' ->
  ToBoolean (analyzeResult (ui p)) = true
  /\ detailing p' =
       (detailing p ++ [{| url := ragUrl; method := "POST";
                          headers := [("Content-Type", "application/json")];
                          body := JsonText (payload (analyzeResult (ui p))) |}])%list
  /\ analyzing p' = analyzing p
  /\ ui p' = mkState (loading (ui p)) true (file (ui p)) (previewUrl (ui p))
               (dragActive (ui p)) (error (ui p)) (analyzeResult (ui p))
               (ragResult (ui p)).
Proof.
  unfold step.
  destruct (render (ui p)) as [v | e] eqn:R; [| discriminate].
  destruct (render_buttons _ _ R) as [_ Bs].
  destruct (results v) as [| t | r] eqn:Rv; try discriminate.
  destruct (Bs r eq_refl) as [Ta Sd]. rewrite Sd.
  destruct (loading (ui p)) eqn:Dl; [discriminate |].
  destruct (ragLoading (ui p)) eqn:Dr; [discriminate |].
  cbn [orb]. rewrite see_more_click, Ta.
  intros E. inversion E; subst; clear E. cbn. rewrite Dl. repeat split; auto.
Qed.

Lemma see_more_click_asks_witness :
  step leaf_analysed ClickSeeMore = Some awaiting_details
  /\ (ToBoolean (analyzeResult (ui leaf_analysed)) = true
      /\ detailing awaiting_details =
           (detailing leaf_analysed
           ++ [{| url := ragUrl; method := "POST";
                  headers := [("Content-Type", "application/json")];
                  body := JsonText (payload (analyzeResult (ui leaf_analysed))) |}])%list
      /\ analyzing awaiting_details = analyzing leaf_analysed
      /\ ui awaiting_details =
           mkState (loading (ui leaf_analysed)) true (file (ui leaf_analysed))
             (previewUrl (ui leaf_analysed)) (dragActive (ui leaf_analysed))
             (error (ui leaf_analysed)) (analyzeResult (ui leaf_analysed))
             (ragResult (ui leaf_analysed))).
Proof.
  split; [vm_compute; reflexivity |].
  apply see_more_click_asks. vm_compute. reflexivity.
Defined.

(** ** How the two requests settle *)

(** X4: a successful analysis stores the parsed body as the result, clears
    the notice and the detail text of the previous result, lowers [loading],
    and leaves the file, its preview URL and [ragLoading] as they were. *)
Theorem analyze_success_replaces_result (fetched : result Response) (data : value)
  (st : State) :
  delivered fetched = Some data ->
  handleSendClick_settled fetched st =
    (Ok tt,
     mkState false (ragLoading st) (file st) (previewUrl st) (dragActive st)
       VNull data VNull).
Proof.
  intros H. destruct (analyze_settled fetched st) as [msg E]. rewrite E, H. reflexivity.
Qed.

Lemma analyze_success_replaces_result_witness :
  let st := mkState true false (VFile leaf) (VStr (file_url leaf)) false
              (VStr "✅ Image updated successfully!") VNull
              (VObj [("answer", VStr "Remove infected leaves.")]) in
  delivered (answers 200 rust) = Some rust
  /\ handleSendClick_settled (answers 200 rust) st =
       (Ok tt,
        mkState false (ragLoading st) (file st) (previewUrl st) (dragActive st)
          VNull rust VNull).
Proof.
  split; [reflexivity | apply analyze_success_replaces_result; reflexivity].
Defined.

(** X5: however a detail request settles, the handler does not throw, lowers
    [ragLoading], and leaves the analysis result, the file, its preview URL
    and [loading] as they were.  A success stores the body as the detail and
    clears the notice.  A failure keeps the detail that was there and sets
    the notice to the error message of the failure: "❌ Error fetching RAG
    data: " with the message of the error thrown, or "❌ RAG API error: "
    with the [error] text of the body (or "Failed to get RAG output") and the
    status. *)
Theorem detail_leaves_analysis (fetched : result Response) (st : State) :
  handleSeeMoreClick_settled fetched st =
    (Ok tt,
     match delivered fetched with
     | Some data =>
         mkState (loading st) false (file st) (previewUrl st) (dragActive st)
           VNull (analyzeResult st) data
     | None =>
         mkState (loading st) false (file st) (previewUrl st) (dragActive st)
           (VStr (failure_notice "❌ Error fetching RAG data: " "❌ RAG API error: "
                    "Failed to get RAG output" fetched))
           (analyzeResult st) (ragResult st)
     end).
Proof.
  destruct st as [l r f u d n a g]. run_handler. unfold delivered, failure_notice.
  destruct fetched as [res | e]; [| reflexivity].
  destruct (json res) as [data | e]; [| reflexivity].
  destruct (ok res); [reflexivity |].
  unfold get, get_opt. destruct (is_nullish data); [reflexivity |].
  cbv beta iota. unfold or.
  destruct (ToBoolean (lookup "error" (properties data))); reflexivity.
Qed.

(** ** The notice *)

(** A status code is printed in plain decimal digits. *)
Lemma status_codes_in_decimal :
  forallb (fun z => String.eqb (Number_toString (of_Z z)) (decimal z)) status_codes = true.
Proof. vm_compute. reflexivity. Qed.

Lemma status_in_decimal (z : Z) :
  100 <= z <= 599 -> Number_toString (of_Z z) = decimal z.
Proof.
  intros H. apply String.eqb_eq.
  apply (proj1 (forallb_forall _ status_codes) status_codes_in_decimal).
  unfold status_codes. apply in_map_iff. exists (Z.to_nat (z - 100)).
  split; [lia | apply in_seq; lia].
Qed.

(** X7: a response with a status outside 200-299 whose body is JSON (and not
    [null]) leaves the notice "❌ Analyze API error: TEXT (Status: CODE)",
    where TEXT is the [error] field of the body, or "Failed to process image"
    when that field is missing or falsy, and CODE the status in decimal; the
    detail request does the same with "❌ RAG API error: " and "Failed to get
    RAG output". *)
Theorem rejection_notice (res : Response) (data detail : value) (st : State) :
  json res = Ok data ->
  get data "error" = Ok detail ->
  ok res = false ->
  100 <= status res <= 599 ->
  error (snd (handleSendClick_settled (Ok res) st))
  = VStr ("❌ Analyze API error: "
          ++ (if ToBoolean detail then ToString detail else "Failed to process image")
          ++ " (Status: " ++ decimal (status res) ++ ")")
  /\ error (snd (handleSeeMoreClick_settled (Ok res) st))
     = VStr ("❌ RAG API error: "
             ++ (if ToBoolean detail then ToString detail else "Failed to get RAG output")
             ++ " (Status: " ++ decimal (status res) ++ ")").
Proof.
  intros J G K S. destruct st as [l r f u d e a g].
  run_handler. rewrite J, K, G. cbv beta iota. rewrite (status_in_decimal _ S).
  unfold or. destruct (ToBoolean detail); split; reflexivity.
Qed.

Lemma rejection_notice_witness :
  let res := {| status := 500; json := Ok (VObj [("error", VStr "bad image")]) |} in
  let st := ui awaiting_analysis in
  json res = Ok (VObj [("error", VStr "bad image")])
  /\ get (VObj [("error", VStr "bad image")]) "error" = Ok (VStr "bad image")
  /\ ok res = false
  /\ 100 <= status res <= 599
  /\ (error (snd (handleSendClick_settled (Ok res) st))
      = VStr "❌ Analyze API error: bad image (Status: 500)"
      /\ error (snd (handleSeeMoreClick_settled (Ok res) st))
         = VStr "❌ RAG API error: bad image (Status: 500)").
Proof.
  split; [reflexivity | split; [reflexivity | split; [reflexivity | split; [cbn; lia |]]]].
  refine (rejection_notice {| status := 500; json := Ok (VObj [("error", VStr "bad image")]) |}
            (VObj [("error", VStr "bad image")]) (VStr "bad image") (ui awaiting_analysis)
            eq_refl eq_refl eq_refl _).
  cbn. lia.
Defined.

(** X8: a failure of the transport or of the parsing (a rejected [fetch], a
    body that is not JSON) leaves the notice "❌ Error uploading image: "
    followed by the message of the error, whatever the status was; so does a
    rejection whose body is the JSON [null], since reading its [error] field
    throws: the status code does not reach the notice. *)
Theorem transport_notice (fetched : result Response) (st : State) :
  let thrown :=
    match fetched with
    | Throw e => Some e
    | Ok res =>
        match json res with
        | Throw e => Some e
        | Ok data =>
            if negb (ok res) && is_nullish data then Some (cannot_read data "error")
            else None
        end
    end in
  forall e, thrown = Some e ->
    handleSendClick_settled fetched st =
      (Ok tt,
       mkState false (ragLoading st) (file st) (previewUrl st) (dragActive st)
         (VStr ("❌ Error uploading image: " ++ message e))
         (analyzeResult st) (ragResult st)).
Proof.
  intros thrown e H. subst thrown. destruct st as [l r f u d n a g]. run_handler.
  destruct fetched as [res | e0]; [| inversion H; subst; reflexivity].
  destruct (json res) as [data | e0]; [| inversion H; subst; reflexivity].
  destruct (ok res); [discriminate |]. cbn [negb andb] in H.
  unfold get. destruct (is_nullish data); inversion H; subst. reflexivity.
Qed.

Lemma transport_notice_witness :
  let fetched := Ok {| status := 502; json := Ok VNull |} in
  let st := ui awaiting_analysis in
  handleSendClick_settled fetched st =
    (Ok tt,
     mkState false (ragLoading st) (file st) (previewUrl st) (dragActive st)
       (VStr "❌ Error uploading image: Cannot read properties of null (reading 'error')")
       (analyzeResult st) (ragResult st)).
Proof.
  exact (transport_notice (Ok {| status := 502; json := Ok VNull |}) (ui awaiting_analysis)
           (cannot_read VNull "error") eq_refl).
Defined.

Lemma prefix_app (x a b : string) :
  String.prefix x a = true -> String.prefix x (a ++ b) = true.
Proof.
  revert a. induction x as [| c x IH]; intros a H; [destruct (a ++ b); reflexivity |].
  destruct a as [| d a]; [discriminate |]. cbn in *.
  destruct (ascii_dec c d); [apply IH; exact H | discriminate].
Qed.

Lemma includes_app_l (a b x : string) :
  includes a x = true -> includes (a ++ b) x = true.
Proof.
  induction a as [| c a IH]; cbn [includes]; intros H.
  - rewrite orb_false_r in H. destruct x; [| discriminate]. destruct b; reflexivity.
  - apply orb_true_iff in H. apply orb_true_iff. destruct H as [H | H].
    + left. exact (prefix_app x (String c a) b H).
    + right. apply IH, H.
Qed.

Lemma includes_app_r (a b x : string) :
  includes b x = true -> includes (a ++ b) x = true.
Proof.
  intros H. induction a as [| c a IH]; [exact H |].
  change (String c a ++ b) with (String c (a ++ b)). cbn [includes].
  apply orb_true_iff. right. exact IH.
Qed.

Lemma crossed (rest : string) : is_notice (VStr ("❌" ++ rest)).
Proof. right. right. exists rest. reflexivity. Qed.

Lemma select_notice (c : value) (st : State) :
  is_notice (error st) -> is_notice (error (snd (handleImageFile c st))).
Proof.
  intros N. destruct st as [l r f u d e a g]. cbn [error] in N. run_handler.
  destruct (is_image c) as [v | x]; [| exact N].
  destruct (ToBoolean v); [destruct (createObjectURL c) |]; cbn; unfold is_notice; auto.
Qed.

Lemma analyze_click_notice (st : State) :
  is_notice (error st) -> is_notice (error (snd (handleSendClick_click st))).
Proof.
  intros N. rewrite analyze_click. destruct (ToBoolean (file st)); cbn [snd error].
  - exact N.
  - exact (crossed " Please select or drop an image").
Qed.

Lemma see_more_click_notice (st : State) :
  is_notice (error st) -> is_notice (error (snd (handleSeeMoreClick_click st))).
Proof.
  intros N. rewrite see_more_click. destruct (ToBoolean (analyzeResult st)); cbn [snd error].
  - exact N.
  - exact (crossed " No analysis data available to fetch more details").
Qed.

Lemma analyze_settled_notice (fetched : result Response) (st : State) :
  is_notice (error (snd (handleSendClick_settled fetched st))).
Proof.
  destruct st as [l r f u d n a g]. run_handler.
  destruct fetched as [res | e];
    [| exact (crossed (" Error uploading image: " ++ message e))].
  destruct (json res) as [data | e];
    [| exact (crossed (" Error uploading image: " ++ message e))].
  destruct (ok res); [left; reflexivity |].
  destruct (get data "error") as [x | e];
    [| exact (crossed (" Error uploading image: " ++ message e))].
  exact (crossed (" Analyze API error: " ++ ToString (or x (VStr "Failed to process image"))
                  ++ " (Status: " ++ Number_toString (of_Z (status res)) ++ ")")).
Qed.

Lemma detail_settled_notice (fetched : result Response) (st : State) :
  is_notice (error (snd (handleSeeMoreClick_settled fetched st))).
Proof.
  destruct st as [l r f u d n a g]. run_handler.
  destruct fetched as [res | e];
    [| exact (crossed (" Error fetching RAG data: " ++ message e))].
  destruct (json res) as [data | e];
    [| exact (crossed (" Error fetching RAG data: " ++ message e))].
  destruct (ok res); [left; reflexivity |].
  destruct (get data "error") as [x | e];
    [| exact (crossed (" Error fetching RAG data: " ++ message e))].
  exact (crossed (" RAG API error: " ++ ToString (or x (VStr "Failed to get RAG output"))
                  ++ " (Status: " ++ Number_toString (of_Z (status res)) ++ ")")).
Qed.

Lemma step_notice (p p' : Page) (ev : event) :
  is_notice (error (ui p)) -> step p ev = Some p' -> is_notice (error (ui p')).
Proof.
  intros N. unfold step.
  destruct (render (ui p)) as [v | e]; [| discriminate].
  destruct ev as [c | | f | | f].
  - intros E. inversion E; subst. apply select_notice, N.
  - destruct (analyze_disabled v); [discriminate |].
    pose proof (analyze_click_notice (ui p) N) as C.
    destruct (handleSendClick_click (ui p)) as [r st].
    intros E. inversion E; subst. exact C.
  - destruct (analyzing p); [discriminate |].
    intros E. inversion E; subst. apply analyze_settled_notice.
  - destruct (results v) as [| t | r]; try discriminate.
    destruct (seeMore_disabled r); [discriminate |].
    pose proof (see_more_click_notice (ui p) N) as C.
    destruct (handleSeeMoreClick_click (ui p)) as [q st].
    intros E. inversion E; subst. exact C.
  - destruct (detailing p); [discriminate |].
    intros E. inversion E; subst. apply detail_settled_notice.
Qed.

Lemma run_notice (evs : list event) (p p' : Page) :
  is_notice (error (ui p)) -> run p evs = Some p' -> is_notice (error (ui p')).
Proof.
  revert p. induction evs as [| ev evs IH]; intros p N; cbn [run].
  - intros E. inversion E; subst. exact N.
  - destruct (step p ev) as [q |] eqn:S; [| discriminate].
    apply IH. exact (step_notice p q ev N S).
Qed.

(** X9: on every page that can be reached the notice is empty, the success
    text "✅ Image updated successfully!", or a text that starts with "❌";
    it is never anything but [null] or a string, so the banner, which calls
    [includes] on it, never throws. *)
Theorem notices_are_texts (p : Page) :
  reachable p ->
  is_notice (error (ui p))
  /\ exists banner, noticeBanner (ui p) = Ok banner.
Proof.
  intros [evs R].
  assert (N : is_notice (error (ui p))).
  { apply (run_notice evs start p); [left; reflexivity | exact R]. }
  split; [exact N |].
  unfold noticeBanner, guarded, call_includes.
  destruct N as [-> | [-> | [rest ->]]]; eexists; cbn; reflexivity.
Qed.

Lemma notices_are_texts_witness :
  reachable awaiting_details
  /\ (is_notice (error (ui awaiting_details))
      /\ exists banner, noticeBanner (ui awaiting_details) = Ok banner).
Proof.
  split; [exact awaiting_details_reachable |].
  exact (notices_are_texts awaiting_details awaiting_details_reachable).
Defined.

(** X10: the banner tells success from failure by looking for "✅" in the
    text: a rejection whose [error] text contains that mark is shown with the
    class of a success. *)
Theorem check_mark_in_error_text (res : Response) (data : value) (text : string)
  (st : State) :
  json res = Ok data ->
  get data "error" = Ok (VStr text) ->
  ok res = false ->
  includes text "✅" = true ->
  let st' := snd (handleSendClick_settled (Ok res) st) in
  exists rest,
    error st' = VStr ("❌ Analyze API error: " ++ text ++ rest)
    /\ noticeBanner st' = Ok (Element ("success-message", error st')).
Proof.
  intros J G K I st'. subst st'. destruct st as [l r f u d e a g].
  assert (T : ToBoolean (VStr text) = true).
  { destruct text; [discriminate | reflexivity]. }
  run_handler. rewrite J, K, G. cbv beta iota. unfold or. rewrite T. cbn [ToString].
  eexists. split; [reflexivity |].
  unfold noticeBanner, guarded, call_includes, bind. cbn [error].
  set (msg := "❌ Analyze API error: " ++ text ++ _).
  assert (M : includes msg "✅" = true).
  { subst msg. apply includes_app_r, includes_app_l, I. }
  assert (B : ToBoolean (VStr msg) = true) by reflexivity.
  rewrite B, M. reflexivity.
Qed.

Lemma check_mark_in_error_text_witness :
  let res := {| status := 500; json := Ok (VObj [("error", VStr "checks ✅, upload failed")]) |} in
  let st := ui awaiting_analysis in
  json res = Ok (VObj [("error", VStr "checks ✅, upload failed")])
  /\ get (VObj [("error", VStr "checks ✅, upload failed")]) "error"
     = Ok (VStr "checks ✅, upload failed")
  /\ ok res = false
  /\ includes "checks ✅, upload failed" "✅" = true
  /\ (let st' := snd (handleSendClick_settled (Ok res) st) in
      exists rest,
        error st' = VStr ("❌ Analyze API error: " ++ "checks ✅, upload failed" ++ rest)
        /\ noticeBanner st' = Ok (Element ("success-message", error st'))).
Proof.
  split; [reflexivity | split; [reflexivity | split; [reflexivity | split; [reflexivity |]]]].
  exact (check_mark_in_error_text
           {| status := 500; json := Ok (VObj [("error", VStr "checks ✅, upload failed")]) |}
           (VObj [("error", VStr "checks ✅, upload failed")]) "checks ✅, upload failed"
           (ui awaiting_analysis) eq_refl eq_refl eq_refl eq_refl).
Defined.

(** ** The selected file *)

Lemma in_step_same (st st' : State) :
  file st' = file st -> previewUrl st' = previewUrl st -> in_step st -> in_step st'.
Proof.
  unfold in_step. intros -> ->. auto.
Qed.

Lemma select_in_step (c : value) (st : State) :
  is_selection c = true -> in_step (snd (handleImageFile c st)).
Proof.
  intros S. destruct (is_image_file c) eqn:I.
  - destruct c; try discriminate. cbn in I.
    rewrite (image_file_accepted f st I). right. exists f. cbn. auto.
  - rewrite (selection_rejected c st S I). left. cbn. auto.
Qed.

Lemma step_in_step (p p' : Page) (ev : event) :
  match ev with SelectFile c => is_selection c = true | _ => True end ->
  in_step (ui p) /\ Forall uploads_image (analyzing p) ->
  step p ev = Some p' ->
  in_step (ui p') /\ Forall uploads_image (analyzing p').
Proof.
  intros S [I U]. unfold step.
  destruct (render (ui p)) as [v | e]; [| discriminate].
  destruct ev as [c | | f | | f].
  - intros E. inversion E; subst. cbn [ui analyzing]. split; [apply select_in_step, S | exact U].
  - destruct (analyze_disabled v); [discriminate |].
    rewrite analyze_click. destruct (ToBoolean (file (ui p))) eqn:T;
      intros E; inversion E; subst; cbn [ui analyzing sent option_list]; split.
    + apply (in_step_same (ui p)); auto.
    + apply Forall_app. split; [exact U |]. constructor; [| constructor].
      destruct I as [[F _] | [x [P [F _]]]]; [rewrite F in T; discriminate |].
      exists x. rewrite F. auto.
    + apply (in_step_same (ui p)); auto.
    + rewrite app_nil_r. exact U.
  - destruct (analyzing p) as [| rq rest]; [discriminate |].
    intros E. inversion E; subst. cbn [ui analyzing].
    destruct (analyze_settled f (ui p)) as [msg S']. rewrite S'.
    split; [| inversion U; assumption].
    apply (in_step_same (ui p)); [| | exact I]; destruct (delivered f); reflexivity.
  - destruct (results v) as [| t | r]; try discriminate.
    destruct (seeMore_disabled r); [discriminate |].
    rewrite see_more_click. destruct (ToBoolean (analyzeResult (ui p)));
      intros E; inversion E; subst; cbn [ui analyzing]; split; auto;
      apply (in_step_same (ui p)); auto.
  - destruct (detailing p) as [| rq rest]; [discriminate |].
    intros E. inversion E; subst. cbn [ui analyzing].
    destruct (detail_settled f (ui p)) as [msg S']. rewrite S'.
    split; [| exact U].
    apply (in_step_same (ui p)); [| | exact I]; destruct (delivered f); reflexivity.
Qed.

Lemma run_in_step (evs : list event) (p p' : Page) :
  selections evs = true ->
  in_step (ui p) /\ Forall uploads_image (analyzing p) ->
  run p evs = Some p' ->
  in_step (ui p') /\ Forall uploads_image (analyzing p').
Proof.
  revert p. induction evs as [| ev evs IH]; intros p S K; cbn [run].
  - intros E. inversion E; subst. exact K.
  - cbn in S. apply andb_true_iff in S. destruct S as [S1 S2].
    destruct (step p ev) as [q |] eqn:St; [| discriminate].
    apply IH; [exact S2 |]. apply (step_in_step p q ev); auto.
    destruct ev; auto.
Qed.

Lemma start_in_step : in_step (ui start) /\ Forall uploads_image (analyzing start).
Proof. split; [left; split; reflexivity | constructor]. Qed.

(** X11: as long as the drop zone hands over nothing or files, the stored
    file and preview URL go together (none, or an image file and the URL
    minted for that very file), and every analysis request in flight uploads
    an image file: a file of another type is never sent. *)
Theorem only_images_are_uploaded (evs : list event) (p : Page) :
  selections evs = true ->
  run start evs = Some p ->
  in_step (ui p) /\ Forall uploads_image (analyzing p).
Proof.
  intros S R. exact (run_in_step evs start p S start_in_step R).
Qed.

Lemma only_images_are_uploaded_witness :
  let evs := [SelectFile (VFile report); SelectFile (VFile leaf); ClickAnalyze] in
  selections evs = true
  /\ run start evs = Some awaiting_analysis
  /\ (in_step (ui awaiting_analysis) /\ Forall uploads_image (analyzing awaiting_analysis)).
Proof.
  split; [reflexivity | split; [reflexivity |]].
  exact (only_images_are_uploaded
           [SelectFile (VFile report); SelectFile (VFile leaf); ClickAnalyze]
           awaiting_analysis eq_refl eq_refl).
Defined.



(** ** The results section *)

Lemma get_is_get_opt (a : value) (key : string) :
  is_nullish a = false -> get a key = Ok (get_opt a key).
Proof. intros N. unfold get, get_opt. rewrite N. reflexivity. Qed.

Lemma truthy_not_nullish (a : value) : ToBoolean a = true -> is_nullish a = false.
Proof. destruct a; try discriminate; reflexivity. Qed.

Lemma bar_with_classification (a : value) :
  is_nullish a = false ->
  is_nullish (get_opt a "disease_classification") = false ->
  exists p, probabilities a = Ok p /\ is_nullish p = false.
Proof.
  intros Na Nc.
  assert (P : probabilities a
              = Ok (or (get_opt (get_opt a "disease_classification") "probabilities")
                      (VObj []))).
  { unfold probabilities. rewrite (get_is_get_opt a _ Na). cbn [bind].
    rewrite (get_is_get_opt _ _ Nc). reflexivity. }
  eexists. split; [exact P |]. exact (probabilities_not_nullish a _ P).
Qed.

(** X13: a result on the screen has a bar series exactly when it has its
    [disease_classification]; whatever the [probabilities] under it hold (a
    map, nothing, a text, a number, a list), the projection does not throw,
    and its labels, values and colours are of one length. *)
Theorem bar_series_exists (a : value) :
  ToBoolean a = true ->
  ((exists b, barData a = Ok b)
   <-> is_nullish (get_opt a "disease_classification") = false)
  /\ forall b, barData a = Ok b ->
       List.length (bar_data b) = List.length (bar_labels b)
       /\ List.length (bar_backgroundColor b) = List.length (bar_labels b).
Proof.
  intros T. pose proof (truthy_not_nullish a T) as Na. split; [split |].
  - intros [b B]. destruct (is_nullish (get_opt a "disease_classification")) eqn:N;
      [| reflexivity].
    destruct (bar_needs_classification a T N) as [e E]. rewrite E in B. discriminate.
  - intros N. destruct (bar_with_classification a Na N) as [p [P Np]].
    rewrite (bar_data_of_map a p P Np). eexists. reflexivity.
  - intros b B.
    destruct (probabilities a) as [p | e] eqn:P;
      [| unfold barData in B; rewrite P in B; discriminate].
    rewrite (bar_data_of_map a p P (probabilities_not_nullish a p P)) in B.
    inversion B; subst. cbn. rewrite !length_map. auto.
Qed.

Lemma bar_series_exists_witness :
  let a := VObj [("disease_classification", VObj [("probabilities", VStr "n/a")])] in
  ToBoolean a = true
  /\ (((exists b, barData a = Ok b)
       <-> is_nullish (get_opt a "disease_classification") = false)
      /\ forall b, barData a = Ok b ->
           List.length (bar_data b) = List.length (bar_labels b)
           /\ List.length (bar_backgroundColor b) = List.length (bar_labels b)).
Proof.
  split; [reflexivity |].
  exact (bar_series_exists
           (VObj [("disease_classification", VObj [("probabilities", VStr "n/a")])]) eq_refl).
Defined.

(** X14: [getSeverityColor] throws exactly on a level that is there and is
    not a string; on a string or a missing level it gives one of its five
    colours. *)
Theorem severity_colour_total (level : value) :
  ((exists e, getSeverityColor level = Throw e)
   <-> is_nullish level = false /\ forall s, level <> VStr s)
  /\ forall c, getSeverityColor level = Ok c ->
       In c ["#FFC107"; "#FF9800"; "#F44336"; "#4CAF50"; "#9E9E9E"].
Proof.
  split; [split |].
  - intros [e E]. destruct level; try (cbn in E; discriminate);
      (split; [reflexivity | intros s' H; discriminate]).
  - intros [N S]. destruct level; try discriminate; try (eexists; reflexivity).
    elim (S s). reflexivity.
  - intros c E.
    assert (C : forall v, In (severity_colour v)
                            ["#FFC107"; "#FF9800"; "#F44336"; "#4CAF50"; "#9E9E9E"]).
    { intros v. unfold severity_colour.
      destruct v;
        try destruct (same_word "mild" s);
        try destruct (same_word "moderate" s);
        try destruct (same_word "severe" s);
        try destruct (same_word "healthy" s);
        unfold In; repeat (first [left; reflexivity | right]). }
    destruct level; try (cbn in E; discriminate).
    + rewrite (severity_colour_of_nullish VUndefined eq_refl) in E.
      injection E as <-. exact (C VUndefined).
    + rewrite (severity_colour_of_nullish VNull eq_refl) in E.
      injection E as <-. exact (C VNull).
    + rewrite severity_colour_of_string in E. injection E as <-. exact (C (VStr s)).
Qed.

Lemma metric_shown (v : value) :
  number_or_missing v = true ->
  text_nodes (coalesce v (VStr "N/A")) = Ok (metric_text v).
Proof. destruct v; try discriminate; reflexivity. Qed.

Lemma severity_shown (v : value) :
  number_or_missing v = true ->
  text_nodes (or v (VNum (of_Z 0)))
  = Ok [Number_toString (ToNumber (or v (VNum (of_Z 0))))].
Proof.
  destruct v; try discriminate; intros _; try reflexivity.
  unfold or. destruct (ToBoolean (VNum n)); reflexivity.
Qed.

Lemma class_shown (v : value) :
  text_or_missing v = true ->
  text_nodes (or v (VStr "N/A")) = Ok [ToString (or v (VStr "N/A"))].
Proof.
  destruct v; try discriminate; intros _; try reflexivity.
  unfold or. destruct (ToBoolean (VStr s)); reflexivity.
Qed.

Lemma class_colour (v : value) :
  text_or_missing v = true -> getSeverityColor v = Ok (severity_colour v).
Proof.
  destruct v; try discriminate; intros _.
  - apply severity_colour_of_nullish. reflexivity.
  - apply severity_colour_of_nullish. reflexivity.
  - apply severity_colour_of_string.
Qed.

Lemma info_grid_of_typed (a : value) :
  text_or_missing (classification a) = true ->
  number_or_missing (severity a) = true ->
  number_or_missing (segmentation_field a "boundary_pixels") = true ->
  number_or_missing (segmentation_field a "disease_pixels") = true ->
  number_or_missing (segmentation_field a "total_leaf_area") = true ->
  infoGrid a =
    Ok [ {| info_label := "Boundary Pixels:"; info_colour := None;
            info_value := metric_text (segmentation_field a "boundary_pixels") |};
         {| info_label := "Disease Pixels:"; info_colour := None;
            info_value := metric_text (segmentation_field a "disease_pixels") |};
         {| info_label := "Total Leaf Area:"; info_colour := None;
            info_value := metric_text (segmentation_field a "total_leaf_area") |};
         {| info_label := "Severity:";
            info_colour := Some (severity_colour (classification a));
            info_value := [Number_toString (ToNumber (truthy_or (severity a) (VNum (of_Z 0))));
                           "%"] |};
         {| info_label := "Classification:";
            info_colour := Some (severity_colour (classification a));
            info_value := [ToString (truthy_or (classification a) (VStr "N/A"))] |} ].
Proof.
  intros C S B D T. unfold infoGrid.
  rewrite (metric_shown _ B), (metric_shown _ D), (metric_shown _ T). cbn [bind].
  change (segmentation_field a "classification") with (classification a).
  rewrite (class_colour _ C). cbn [bind].
  unfold severityPercentage. change (get_opt (get_opt a "disease_segmentation") "severity")
    with (severity a).
  rewrite (severity_shown _ S). cbn [bind]. rewrite (class_shown _ C). reflexivity.
Qed.

(** X15: for a result whose severity class is a text and whose severity and
    metrics are numbers, each where it is there, the info grid has its five
    lines in order; a metric shows its number (0 as "0") and "N/A" only when
    it is missing or [null], each metric by itself; the severity shows the
    number, 0 when missing, before "%"; the class shows its text, "N/A" when
    missing or empty; the last two lines take the colour of the class. *)
Theorem info_grid_lines (a : value) :
  text_or_missing (classification a) = true ->
  number_or_missing (severity a) = true ->
  number_or_missing (segmentation_field a "boundary_pixels") = true ->
  number_or_missing (segmentation_field a "disease_pixels") = true ->
  number_or_missing (segmentation_field a "total_leaf_area") = true ->
  infoGrid a =
    Ok [ {| info_label := "Boundary Pixels:"; info_colour := None;
            info_value := metric_text (segmentation_field a "boundary_pixels") |};
         {| info_label := "Disease Pixels:"; info_colour := None;
            info_value := metric_text (segmentation_field a "disease_pixels") |};
         {| info_label := "Total Leaf Area:"; info_colour := None;
            info_value := metric_text (segmentation_field a "total_leaf_area") |};
         {| info_label := "Severity:";
            info_colour := Some (severity_colour (classification a));
            info_value := [Number_toString (ToNumber (truthy_or (severity a) (VNum (of_Z 0))));
                           "%"] |};
         {| info_label := "Classification:";
            info_colour := Some (severity_colour (classification a));
            info_value := [ToString (truthy_or (classification a) (VStr "N/A"))] |} ].
Proof. exact (info_grid_of_typed a). Qed.

Lemma info_grid_lines_witness :
  let a := VObj [("disease_segmentation",
                  VObj [("severity", VNum (of_Z 35)); ("classification", VStr "Moderate");
                        ("boundary_pixels", VNum (of_Z 0));
                        ("disease_pixels", VNum (of_Z 1250))])] in
  text_or_missing (classification a) = true
  /\ number_or_missing (severity a) = true
  /\ number_or_missing (segmentation_field a "boundary_pixels") = true
  /\ number_or_missing (segmentation_field a "disease_pixels") = true
  /\ number_or_missing (segmentation_field a "total_leaf_area") = true
  /\ infoGrid a =
       Ok [ {| info_label := "Boundary Pixels:"; info_colour := None; info_value := ["0"] |};
            {| info_label := "Disease Pixels:"; info_colour := None;
               info_value := ["1250"] |};
            {| info_label := "Total Leaf Area:"; info_colour := None;
               info_value := ["N/A"] |};
            {| info_label := "Severity:"; info_colour := Some "#FF9800";
               info_value := ["35"; "%"] |};
            {| info_label := "Classification:"; info_colour := Some "#FF9800";
               info_value := ["Moderate"] |} ].
Proof.
  repeat (split; [reflexivity |]).
  refine (eq_trans
            (info_grid_lines
               (VObj [("disease_segmentation",
                       VObj [("severity", VNum (of_Z 35)); ("classification", VStr "Moderate");
                             ("boundary_pixels", VNum (of_Z 0));
                             ("disease_pixels", VNum (of_Z 1250))])])
               eq_refl eq_refl eq_refl eq_refl eq_refl) _).
  vm_compute. reflexivity.
Defined.




(** ** The payload *)

(** X17: whatever the analysis result holds, the payload of the detail
    request has its four keys, in the order messages, predicted_class,
    severity, severity_class, and none of the three derived fields is
    [undefined] or [null]: the two labels are truthy, the severity is truthy
    or the number 0. *)
Theorem payload_fields_present (a : value) :
  map fst (properties (payload a))
  = ["messages"; "predicted_class"; "severity"; "severity_class"]
  /\ ToBoolean (lookup "predicted_class" (properties (payload a))) = true
  /\ ToBoolean (lookup "severity_class" (properties (payload a))) = true
  /\ (ToBoolean (lookup "severity" (properties (payload a))) = true
      \/ lookup "severity" (properties (payload a)) = VNum (of_Z 0)).
Proof.
  unfold payload, or.
  cbn [properties enumerable map fst lookup String.eqb Ascii.eqb Bool.eqb].
  split; [reflexivity |]. split; [| split].
  - destruct (ToBoolean (get_opt (get_opt a "disease_classification") "predicted_class"))
      eqn:T; [exact T | reflexivity].
  - destruct (ToBoolean (get_opt (get_opt a "disease_segmentation") "classification"))
      eqn:T; [exact T | reflexivity].
  - destruct (ToBoolean (get_opt (get_opt a "disease_segmentation") "severity"))
      eqn:T; [left; exact T | right; reflexivity].
Qed.

(** ** The whole screen *)

Lemma banner_of_notice (st : State) :
  is_notice (error st) -> exists banner, noticeBanner st = Ok banner.
Proof.
  intros N. unfold noticeBanner, guarded, call_includes.
  destruct N as [-> | [-> | [rest ->]]]; eexists; cbn; reflexivity.
Qed.

Lemma well_typed_fields (a : value) :
  well_typed a = true ->
  ToBoolean a = true
  /\ is_nullish (get_opt a "disease_classification") = false
  /\ text_or_missing (classification a) = true
  /\ number_or_missing (severity a) = true
  /\ number_or_missing (segmentation_field a "boundary_pixels") = true
  /\ number_or_missing (segmentation_field a "disease_pixels") = true
  /\ number_or_missing (segmentation_field a "total_leaf_area") = true.
Proof.
  unfold well_typed. intros H.
  repeat (apply andb_true_iff in H; destruct H as [H ?]).
  apply negb_true_iff in H5. auto 10.
Qed.

Lemma charts_of_typed (a : value) :
  well_typed a = true ->
  exists b, barData a = Ok b
            /\ doughnutData a =
                 Ok {| doughnut_labels := ["Diseased"; "Healthy"];
                       doughnut_data :=
                         [severityPercentage a;
                          VNum (subtract (of_Z 100) (ToNumber (severityPercentage a)))];
                       doughnut_backgroundColor :=
                         [severity_colour (classification a); healthyColor] |}.
Proof.
  intros W. destruct (well_typed_fields a W) as (T & Nc & C & _).
  destruct (bar_with_classification a (truthy_not_nullish a T) Nc) as [p [P Np]].
  eexists. split; [exact (bar_data_of_map a p P Np) |].
  unfold doughnutData. fold (classification a). rewrite (class_colour _ C). reflexivity.
Qed.

(** X18: the screen renders, without a throw, in every state whose notice is
    one the component writes and whose analysis result is missing or has the
    types of the analysis API; the results section is on it exactly when
    there is a result. *)
Theorem screen_of_typed_state (st : State) :
  is_notice (error st) ->
  ToBoolean (analyzeResult st) = false \/ well_typed (analyzeResult st) = true ->
  exists s,
    screen st = Ok s
    /\ (ToBoolean (analyzeResult st) = true <-> exists r, screen_results s = Element r).
Proof.
  intros N H. destruct (banner_of_notice st N) as [banner B].
  unfold screen. rewrite B. cbn [bind].
  assert (R : exists r, guarded (ragResult st) (Ok (ragContent (ragResult st))) = Ok r).
  { unfold guarded. destruct (ToBoolean (ragResult st)); eexists; reflexivity. }
  destruct R as [r R]. rewrite R.
  destruct H as [F | W].
  - unfold guarded at 1. rewrite F. cbn [bind]. eexists. split; [reflexivity |].
    cbn [screen_results]. split; [discriminate |].
    intros [x X]. destruct (analyzeResult st); discriminate.
  - destruct (well_typed_fields _ W) as (T & Nc & C & S & Mb & Md & Mt).
    destruct (charts_of_typed _ W) as [b [Eb Ed]].
    assert (Q : exists x, resultsSection st = Ok x).
    { unfold resultsSection. rewrite Eb, Ed. cbn [bind].
      change (segmentation_field (analyzeResult st) "classification")
        with (classification (analyzeResult st)).
      rewrite (class_colour _ C). cbn [bind].
      unfold severityPercentage.
      change (get_opt (get_opt (analyzeResult st) "disease_segmentation") "severity")
        with (severity (analyzeResult st)).
      rewrite (severity_shown _ S). cbn [bind].
      rewrite (info_grid_of_typed _ C S Mb Md Mt). eexists. reflexivity. }
    destruct Q as [x Q]. unfold guarded at 1. rewrite T, Q. cbn [bind].
    eexists. split; [reflexivity |]. cbn [screen_results]. split; eauto.
Qed.

Lemma screen_of_typed_state_witness :
  is_notice (error (ui leaf_analysed))
  /\ (ToBoolean (analyzeResult (ui leaf_analysed)) = false
      \/ well_typed (analyzeResult (ui leaf_analysed)) = true)
  /\ exists s,
       screen (ui leaf_analysed) = Ok s
       /\ (ToBoolean (analyzeResult (ui leaf_analysed)) = true
           <-> exists r, screen_results s = Element r).
Proof.
  split; [left; reflexivity | split; [right; reflexivity |]].
  exact (screen_of_typed_state (ui leaf_analysed) (or_introl eq_refl) (or_intror eq_refl)).
Defined.

(** ** A selection while an analysis is in flight *)

(** The results section of a result that has the types of the analysis API. *)
Lemma results_of_typed (st : State) :
  well_typed (analyzeResult st) = true ->
  exists r,
    resultsSection st = Ok r
    /\ barData (analyzeResult st) = Ok (section_bar r)
    /\ doughnutData (analyzeResult st) = Ok (section_doughnut r)
    /\ infoGrid (analyzeResult st) = Ok (section_info r)
    /\ section_images r = imageGrid (analyzeResult st)
    /\ section_button r = (seeMore_text st, loading st || ragLoading st).
Proof.
  intros W. destruct (well_typed_fields _ W) as (T & Nc & C & S & Mb & Md & Mt).
  destruct (charts_of_typed _ W) as [b [Eb Ed]].
  unfold resultsSection. rewrite Eb, Ed. cbn [bind].
  change (segmentation_field (analyzeResult st) "classification")
    with (classification (analyzeResult st)).
  rewrite (class_colour _ C). cbn [bind].
  unfold severityPercentage.
  change (get_opt (get_opt (analyzeResult st) "disease_segmentation") "severity")
    with (severity (analyzeResult st)).
  rewrite (severity_shown _ S). cbn [bind].
  rewrite (info_grid_of_typed _ C S Mb Md Mt). cbn [bind].
  eexists. split; [reflexivity |].
  cbn [section_bar section_doughnut section_info section_images section_button].
  repeat split; reflexivity.
Qed.

(** X6: a selection does not cancel an analysis in flight.  When its answer,
    a success whose body has the types of the analysis API, arrives after
    another image file was selected, the result is stored all the same and
    displayed on the page of the newly selected file: that file and its
    preview URL are in the state, the notice of the selection is cleared,
    the screen renders, and the results section on it shows the charts, the
    info grid and the images of this result. *)
Theorem selection_does_not_cancel (p : Page) (v : View) (f : File) (data : value)
  (rq : Request) (rest : list Request) :
  render (ui p) = Ok v ->
  analyzing p = rq :: rest ->
  startsWith (file_type f) "image/" = true ->
  well_typed data = true ->
  exists p' s r,
    run p [SelectFile (VFile f); AnalyzeSettles (answers 200 data)] = Some p'
    /\ ui p' = mkState false (ragLoading (ui p)) (VFile f) (VStr (file_url f))
                 (dragActive (ui p)) VNull data VNull
    /\ analyzing p' = rest
    /\ detailing p' = detailing p
    /\ screen (ui p') = Ok s
    /\ screen_notice s = Blank
    /\ screen_results s = Element r
    /\ barData data = Ok (section_bar r)
    /\ doughnutData data = Ok (section_doughnut r)
    /\ infoGrid data = Ok (section_info r)
    /\ section_images r = imageGrid data.
Proof.
  intros R A F W. destruct (well_typed_fields _ W) as (T & _).
  set (st' := mkState false (ragLoading (ui p)) (VFile f) (VStr (file_url f))
                (dragActive (ui p)) VNull data VNull).
  assert (E : run p [SelectFile (VFile f); AnalyzeSettles (answers 200 data)]
              = Some {| ui := st'; analyzing := rest; detailing := detailing p |}).
  { cbn [run]. unfold step at 1. rewrite R.
    rewrite (image_file_accepted f (ui p) F). cbn [snd].
    unfold step. cbn [ui analyzing detailing].
    unfold render at 1. cbn [analyzeResult ragResult guarded ToBoolean bind loading file].
    rewrite A.
    match goal with
    | |- context [handleSendClick_settled ?x ?y] =>
        destruct (analyze_settled x y) as [msg S]; rewrite S
    end.
    reflexivity. }
  destruct (results_of_typed st' W) as (r & Q & Hb & Hd & Hi & Hg & _).
  exists {| ui := st'; analyzing := rest; detailing := detailing p |}.
  eexists. exists r. split; [exact E |]. cbn [ui analyzing detailing].
  split; [reflexivity |]. split; [reflexivity |]. split; [reflexivity |].
  split.
  - unfold screen. unfold noticeBanner, guarded at 1. cbn [error st' ToBoolean bind].
    unfold guarded at 1.
    change (analyzeResult st') with data. rewrite T.
    change (resultsSection (mkState false (ragLoading (ui p)) (VFile f) (VStr (file_url f))
                (dragActive (ui p)) VNull data VNull)) with (resultsSection st').
    rewrite Q. cbn [bind].
    unfold guarded. cbn [ragResult st' ToBoolean bind]. reflexivity.
  - cbn [screen_notice screen_results]. repeat split; assumption.
Qed.

Lemma selection_does_not_cancel_witness :
  render (ui awaiting_analysis)
  = Ok {| analyze_disabled := true; results := Blank; rag := Blank |}
  /\ analyzing awaiting_analysis
     = [{| url := analyzeUrl; method := "POST"; headers := [];
           body := FormData [("file", VFile leaf)] |}]
  /\ startsWith (file_type tomato) "image/" = true
  /\ well_typed rust = true
  /\ exists p' s r,
       run awaiting_analysis [SelectFile (VFile tomato); AnalyzeSettles (answers 200 rust)]
       = Some p'
       /\ ui p' = mkState false false (VFile tomato) (VStr (file_url tomato)) false
                    VNull rust VNull
       /\ analyzing p' = []
       /\ detailing p' = []
       /\ screen (ui p') = Ok s
       /\ screen_notice s = Blank
       /\ screen_results s = Element r
       /\ barData rust = Ok (section_bar r)
       /\ doughnutData rust = Ok (section_doughnut r)
       /\ infoGrid rust = Ok (section_info r)
       /\ section_images r = imageGrid rust.
Proof.
  split; [reflexivity | split; [reflexivity | split; [reflexivity | split; [reflexivity |]]]].
  exact (selection_does_not_cancel awaiting_analysis _ tomato rust _ []
           eq_refl eq_refl eq_refl eq_refl).
Defined.

(** ** From the selection to the details *)

Lemma render_of_typed (st : State) :
  ToBoolean (analyzeResult st) = false \/ well_typed (analyzeResult st) = true ->
  exists v,
    render st = Ok v
    /\ (ToBoolean (analyzeResult st) = true -> exists r, results v = Element r).
Proof.
  intros H. unfold render.
  assert (R : exists r, guarded (ragResult st) (Ok (ragContent (ragResult st))) = Ok r).
  { unfold guarded. destruct (ToBoolean (ragResult st)); eexists; reflexivity. }
  destruct R as [r R].
  destruct H as [F | W].
  - unfold guarded at 1. rewrite F. cbn [bind]. rewrite R. cbn [bind].
    eexists. split; [reflexivity |]. intros T. discriminate.
  - destruct (well_typed_fields _ W) as (T & _).
    destruct (charts_of_typed _ W) as [b [Eb Ed]].
    unfold guarded at 1. rewrite T, Eb, Ed. cbn [bind]. rewrite R. cbn [bind].
    eexists. split; [reflexivity |]. intros _. cbn [results]. eauto.
Qed.

(** X19: from the first render, selecting an image file, analysing it with a
    success whose body has the types of the analysis API, and asking for the
    details with a success leads to the page with that file and its preview
    URL, that result, that detail, no notice, no loading flag and nothing in
    flight; every click on the way is let through. *)
Theorem selection_to_details (f : File) (data detail : value) :
  startsWith (file_type f) "image/" = true ->
  well_typed data = true ->
  run start
    [SelectFile (VFile f); ClickAnalyze; AnalyzeSettles (answers 200 data);
     ClickSeeMore; DetailSettles (answers 200 detail)]
  = Some {| ui := mkState false false (VFile f) (VStr (file_url f)) false VNull data detail;
            analyzing := []; detailing := [] |}.
Proof.
  intros F W. destruct (well_typed_fields _ W) as (T & _).
  set (s1 := mkState false false (VFile f) (VStr (file_url f)) false
               (VStr "✅ Image updated successfully!") VNull VNull).
  set (s2 := mkState true false (VFile f) (VStr (file_url f)) false
               (VStr "✅ Image updated successfully!") VNull VNull).
  set (s3 := mkState false false (VFile f) (VStr (file_url f)) false VNull data VNull).
  set (s4 := mkState false true (VFile f) (VStr (file_url f)) false VNull data VNull).
  set (rq := {| url := analyzeUrl; method := "POST"; headers := [];
                body := FormData [("file", VFile f)] |}).
  set (dq' := {| url := ragUrl; method := "POST";
                 headers := [("Content-Type", "application/json")];
                 body := JsonText (payload data) |}).
  assert (E1 : step start (SelectFile (VFile f))
               = Some {| ui := s1; analyzing := []; detailing := [] |}).
  { unfold step. cbn [render ui start]. unfold render, initial.
    cbn [analyzeResult ragResult guarded ToBoolean bind analyzing detailing].
    rewrite (image_file_accepted f _ F). reflexivity. }
  assert (E2 : step {| ui := s1; analyzing := []; detailing := [] |} ClickAnalyze
               = Some {| ui := s2; analyzing := [rq]; detailing := [] |}).
  { unfold step. cbn [ui]. unfold render, s1.
    cbn [analyzeResult ragResult guarded ToBoolean bind analyze_disabled loading file
         orb negb].
    rewrite analyze_click. reflexivity. }
  assert (E3 : step {| ui := s2; analyzing := [rq]; detailing := [] |}
                 (AnalyzeSettles (answers 200 data))
               = Some {| ui := s3; analyzing := []; detailing := [] |}).
  { unfold step. cbn [ui]. unfold render, s2.
    cbn [analyzeResult ragResult guarded ToBoolean bind analyzing detailing].
    destruct (analyze_settled (answers 200 data)
                (mkState true false (VFile f) (VStr (file_url f)) false
                   (VStr "✅ Image updated successfully!") VNull VNull)) as [msg S].
    rewrite S. reflexivity. }
  assert (E4 : step {| ui := s3; analyzing := []; detailing := [] |} ClickSeeMore
               = Some {| ui := s4; analyzing := []; detailing := [dq'] |}).
  { unfold step. cbn [ui].
    destruct (render_of_typed s3 (or_intror W)) as [v [R X]].
    destruct (render_buttons _ _ R) as [_ Bs]. rewrite R.
    destruct (X T) as [r Rv]. rewrite Rv.
    destruct (Bs r Rv) as [_ Sd]. rewrite Sd. cbn [s3 loading ragLoading orb].
    rewrite see_more_click.
    change (ToBoolean (analyzeResult s3)) with (ToBoolean data). rewrite T. reflexivity. }
  assert (E5 : step {| ui := s4; analyzing := []; detailing := [dq'] |}
                 (DetailSettles (answers 200 detail))
               = Some {| ui := mkState false false (VFile f) (VStr (file_url f)) false
                                 VNull data detail;
                         analyzing := []; detailing := [] |}).
  { unfold step. cbn [ui].
    destruct (render_of_typed s4 (or_intror W)) as [v [R _]]. rewrite R.
    cbn [detailing analyzing].
    destruct (detail_settled (answers 200 detail) s4) as [msg S]. rewrite S. reflexivity. }
  cbn [run]. rewrite E1, E2, E3, E4, E5. reflexivity.
Qed.

Lemma selection_to_details_witness :
  startsWith (file_type tomato) "image/" = true
  /\ well_typed rust = true
  /\ run start
       [SelectFile (VFile tomato); ClickAnalyze; AnalyzeSettles (answers 200 rust);
        ClickSeeMore;
        DetailSettles (answers 200 (VObj [("answer", VStr "Remove infected leaves.")]))]
     = Some {| ui := mkState false false (VFile tomato) (VStr (file_url tomato)) false VNull
                       rust (VObj [("answer", VStr "Remove infected leaves.")]);
               analyzing := []; detailing := [] |}.
Proof.
  split; [reflexivity | split; [reflexivity |]].
  exact (selection_to_details tomato rust
           (VObj [("answer", VStr "Remove infected leaves.")]) eq_refl eq_refl).
Defined.

(** ** Missing probabilities, missing type *)

(** X20: with the classification in place, probabilities that are missing,
    [null], otherwise falsy, or an object without keys give the empty bar
    series: no labels, no values, no colours, and no throw. *)
Theorem no_probabilities_no_bars (a : value) :
  ToBoolean a = true ->
  is_nullish (get_opt a "disease_classification") = false ->
  ToBoolean (get_opt (get_opt a "disease_classification") "probabilities") = false
  \/ get_opt (get_opt a "disease_classification") "probabilities" = VObj [] ->
  barData a = Ok {| bar_labels := []; bar_data := []; bar_backgroundColor := [] |}.
Proof.
  intros T N H.
  unfold barData, probabilities.
  rewrite (get_is_get_opt a _ (truthy_not_nullish a T)). cbn [bind].
  rewrite (get_is_get_opt _ _ N). cbn [bind]. unfold or.
  destruct H as [H | ->]; [rewrite H |]; reflexivity.
Qed.

Lemma no_probabilities_no_bars_witness :
  let a := VObj [("disease_classification", VObj [("predicted_class", VStr "Rust")])] in
  ToBoolean a = true
  /\ is_nullish (get_opt a "disease_classification") = false
  /\ (ToBoolean (get_opt (get_opt a "disease_classification") "probabilities") = false
      \/ get_opt (get_opt a "disease_classification") "probabilities" = VObj [])
  /\ barData a = Ok {| bar_labels := []; bar_data := []; bar_backgroundColor := [] |}.
Proof.
  split; [reflexivity | split; [reflexivity | split; [left; reflexivity |]]].
  exact (no_probabilities_no_bars
           (VObj [("disease_classification", VObj [("predicted_class", VStr "Rust")])])
           eq_refl eq_refl (or_introl eq_refl)).
Defined.

(** X21: the candidates of type [value] are [undefined], the [File]s, and
    plain data: [null], booleans, numbers, texts, arrays and objects of
    such.  (A [Blob] that is not a [File] is not among them, and nothing is
    said of one here.)  On these candidates [handleImageFile] throws exactly
    when the candidate is there and either has no text as its [type], or is
    plain data whose [type] is a text that starts with "image/": plain data
    is no blob, so no preview URL can be minted for it.  A candidate without
    a text as its [type] leaves the state untouched. *)
Theorem selection_throws_exactly (c : value) (st : State) :
  ((exists e st', handleImageFile c st = (Throw e, st'))
   <-> is_nullish c = false
       /\ ((forall s, lookup "type" (properties c) <> VStr s)
           \/ (exists s, lookup "type" (properties c) = VStr s
                         /\ startsWith s "image/" = true
                         /\ forall f, c <> VFile f)))
  /\ (is_nullish c = false ->
      (forall s, lookup "type" (properties c) <> VStr s) ->
      exists e, handleImageFile c st = (Throw e, st)).
Proof.
  split; [| apply candidate_without_type_throws].
  destruct st as [l r fl u d n a g]. run_handler.
  unfold is_image, get, bind, call_startsWith.
  destruct (is_nullish c) eqn:N.
  - split; [intros (e & st' & H); discriminate | intros [H _]; discriminate].
  - destruct (lookup "type" (properties c)) eqn:L;
      try (split;
           [ intros _; split; [reflexivity | left; intros s' H; discriminate]
           | intros _; eexists; eexists; reflexivity ]).
    cbn [ToBoolean]. destruct (startsWith s "image/") eqn:P.
    + destruct c; cbn [createObjectURL];
        try (split;
             [ intros _; split; [reflexivity |];
               right; exists s; split; [reflexivity |]; split; [exact P |];
               intros f' H; discriminate
             | intros _; eexists; eexists; reflexivity ]);
        try discriminate.
      split; [intros (e & st' & H); discriminate |].
      intros [_ [H | (s' & _ & _ & H)]]; [elim (H s); reflexivity | elim (H f); reflexivity].
    + split; [intros (e & st' & H); discriminate |].
      intros [_ [H | (s' & H1 & H2 & _)]]; [elim (H s); reflexivity |].
      injection H1 as <-. rewrite P in H2. discriminate.
Qed.
